(** * GDPyS: entity resolution, payload cache and persistence of levels and songs

    A shallow embedding of [objects/song.py] and [objects/level.py].  Python
    objects are records, the process-wide caches are finite maps, and every
    [async] method is a computation in a state-and-exception monad over a
    [World] that also records the calls made to the collaborators (store,
    external catalog, file store, loggers) in the order they happen. *)

From stdpp Require Import gmap strings list pretty.
From Stdlib Require Import ZArith Lia Ascii String.

Open Scope Z_scope.

(** ** Collaborators that are imported by the sources but not part of them *)

(** Positional parameter tuple of the [INSERT INTO songs] statement of
    [Song.insert].  The identifier is [None] when the object carried the
    unassigned sentinel. *)
Record SongParams (F : Type) := mkSongParams {
  sp_id : option Z;
  sp_title : string;
  sp_author_id : Z;
  sp_author_name : string;
  sp_size : F;
  sp_author_yt : string;
  sp_url : string;
}.
Arguments mkSongParams {F}.
Arguments sp_id {F}.
Arguments sp_title {F}.

(** Row of [SELECT id, title, author_id, author_name, size, author_yt,
    download FROM songs]. *)
Record SongRow (F : Type) := mkSongRow {
  sr_id : Z;
  sr_title : string;
  sr_author_id : Z;
  sr_author_name : string;
  sr_size : F;
  sr_author_yt : string;
  sr_download : string;
}.
Arguments mkSongRow {F}.
Arguments sr_id {F}.
Arguments sr_title {F}.
Arguments sr_author_id {F}.
Arguments sr_author_name {F}.
Arguments sr_size {F}.
Arguments sr_author_yt {F}.
Arguments sr_download {F}.

(** Row of the level [SELECT] of [Level.from_sql], in its column order. *)
Record LevelRow := mkLevelRow {
  lr_id : Z;
  lr_name : string;
  lr_user_id : Z;
  lr_description : string;
  lr_song_id : option Z;
  lr_extra_str : string;
  lr_replay : string;
  lr_game_version : Z;
  lr_binary_version : Z;
  lr_timestamp : Z;
  lr_downloads : Z;
  lr_likes : Z;
  lr_stars : Z;
  lr_difficulty : Z;
  lr_demon_diff : Z;
  lr_coins : Z;
  lr_coins_verified : bool;
  lr_requested_stars : Z;
  lr_featured_id : Z;
  lr_rate_status : Z;
  lr_ldm : bool;
  lr_objects : Z;
  lr_password : Z;
  lr_working_time : Z;
  lr_level_ver : Z;
  lr_track_id : Z;
  lr_length : Z;
  lr_duals : bool;
  lr_unlisted : bool;
}.

(** Positional parameter tuple of the [INSERT INTO levels] statement of
    [Level.insert]. *)
Record LevelParams := mkLevelParams {
  lp_name : string;
  lp_user_id : Z;
  lp_description : string;
  lp_song_id : Z;
  lp_replay : string;
  lp_game_version : Z;
  lp_binary_version : Z;
  lp_timestamp : Z;
  lp_coins : Z;
  lp_requested_stars : Z;
  lp_ldm : Z;
  lp_objects : Z;
  lp_password : Z;
  lp_working_time : Z;
  lp_level_ver : Z;
  lp_track_id : Z;
  lp_length : Z;
  lp_duals : Z;
  lp_unlisted : Z;
}.

(** What the two modules import from outside: the store adapter
    [glob.sql], the HTTP client [post_request], the wire-format decoder
    [parse_to_dict], [is_numeric], the user object, [Difficulty.NA], and
    the Python built-ins [int], [float] and [sys.getsizeof]. *)
Class Collaborators := {
  PyFloat : Type;
  float_zero : PyFloat;
  py_float : string -> option PyFloat;
  py_int : string -> option Z;
  getsizeof : string -> Z;
  User : Type;
  User_new : User;
  User_id : User -> Z;
  User_from_id : Z -> option User;
  Comment : Type;
  Difficulty_NA : Z;
  Store : Type;
  fetchone_song : Store -> Z -> option (SongRow PyFloat);
  fetchone_level : Store -> Z -> option LevelRow;
  execute_insert_song : Store -> SongParams PyFloat -> Z * Store;
  execute_insert_level : Store -> LevelParams -> Z * Store;
  post_request : Z -> string;
  is_numeric : string -> bool;
  parse_to_dict : string -> gmap Z string;
}.

(** The exceptions the two modules raise or let through *)
Inductive Exn :=
| FileExistsError (msg : string)
| FileNotFoundError (msg : string)
| KeyError (key : Z)
| ValueError (arg : string)
| AttributeError (attr : string).

(** Outcome of a call: a value, or a raised exception *)
Inductive Res (A : Type) :=
| Ok (a : A)
| Raise (e : Exn).
Arguments Ok {A}.
Arguments Raise {A}.

Section GDPyS.
Context `{C : Collaborators}.

(** ** [objects/song.py]: the song object *)

Record Song := mkSong {
  song_id : Z;
  song_title : string;
  song_author_id : Z;
  song_author_name : string;
  song_size : PyFloat;
  song_author_yt : string;
  song_url : string;
}.

(** [Song.__init__] *)
Definition Song_new : Song :=
  {| song_id := -1; song_title := ""; song_author_id := 0;
     song_author_name := ""; song_size := float_zero;
     song_author_yt := ""; song_url := "" |}.

Definition Song_set_id (s : Song) (i : Z) : Song :=
  {| song_id := i; song_title := song_title s;
     song_author_id := song_author_id s;
     song_author_name := song_author_name s; song_size := song_size s;
     song_author_yt := song_author_yt s; song_url := song_url s |}.

(** [Song.full_name] *)
Definition Song_full_name (s : Song) : string :=
  song_author_name s +:+ " - " +:+ song_title s.

(** ** [objects/level.py]: the level object *)

(** The [song] attribute of a level holds a [Song], or [None] when
    [Level.from_sql] found no song; [Level.update] stores the result of
    calling [Song.from_id] without awaiting it, that is a coroutine object
    that remembers its argument. *)
Inductive SongRef :=
| SongObj (s : Song)
| SongNone
| SongCoroutine (song_id : Z).

Definition MAX_CACHE_SIZE : Z := 5000.

Record Level := mkLevel {
  id : Z;
  name : string;
  creator : option User;
  comments : list Comment;
  description : string;
  song : SongRef;
  track_id : Z;
  level_version : Z;
  length : Z;
  dual : bool;
  unlisted : bool;
  extra_str : string;
  replay : string;
  game_version : Z;
  binary_version : Z;
  timestamp : Z;
  likes : Z;
  downloads : Z;
  stars : Z;
  difficulty : Z;
  demon_diff : Z;
  coins : Z;
  coins_verified : bool;
  requested_stars : Z;
  feature_id : Z;
  rate_status : Z;
  ldm : bool;
  objects : Z;
  password : Z;
  working_time : Z;
  _cache : string;
}.

Definition default_extra_str : string :=
  "0_0_0_0_0_0_0_0_0_0_0_0_0_0_0_0_0_0_0_0_0_0_0_0_0_0_0_0_0_0_0_0_0_0_0_0_0_0_0_0_0_0_0_0_0_0_0_0_0_0_0_0_0_0_0".

(** [Level.__init__] *)
Definition Level_new : Level :=
  {| id := 0; name := ""; creator := Some User_new; comments := [];
     description := ""; song := SongObj Song_new; track_id := 0;
     level_version := 0; length := 0; dual := false; unlisted := false;
     extra_str := default_extra_str; replay := ""; game_version := 22;
     binary_version := 35; timestamp := 0; likes := 0; downloads := 0;
     stars := 0; difficulty := Difficulty_NA; demon_diff := 0; coins := 0;
     coins_verified := false; requested_stars := 0; feature_id := 0;
     rate_status := 0; ldm := false; objects := 0; password := 0;
     working_time := 0; _cache := "" |}.

Definition Level_set_id (l : Level) (i : Z) : Level :=
  {| id := i; name := name l; creator := creator l; comments := comments l;
     description := description l; song := song l; track_id := track_id l;
     level_version := level_version l; length := length l; dual := dual l;
     unlisted := unlisted l; extra_str := extra_str l; replay := replay l;
     game_version := game_version l; binary_version := binary_version l;
     timestamp := timestamp l; likes := likes l; downloads := downloads l;
     stars := stars l; difficulty := difficulty l;
     demon_diff := demon_diff l; coins := coins l;
     coins_verified := coins_verified l;
     requested_stars := requested_stars l; feature_id := feature_id l;
     rate_status := rate_status l; ldm := ldm l; objects := objects l;
     password := password l; working_time := working_time l;
     _cache := _cache l |}.

Definition Level_set_cache (l : Level) (c : string) : Level :=
  {| id := id l; name := name l; creator := creator l; comments := comments l;
     description := description l; song := song l; track_id := track_id l;
     level_version := level_version l; length := length l; dual := dual l;
     unlisted := unlisted l; extra_str := extra_str l; replay := replay l;
     game_version := game_version l; binary_version := binary_version l;
     timestamp := timestamp l; likes := likes l; downloads := downloads l;
     stars := stars l; difficulty := difficulty l;
     demon_diff := demon_diff l; coins := coins l;
     coins_verified := coins_verified l;
     requested_stars := requested_stars l; feature_id := feature_id l;
     rate_status := rate_status l; ldm := ldm l; objects := objects l;
     password := password l; working_time := working_time l;
     _cache := c |}.

(** [Level.demon], [Level.auto], [Level.featured], [Level.has_status] *)
Definition demon (l : Level) : bool := stars l =? 10.
Definition auto_ (l : Level) : bool := stars l =? 1.
Definition featured (l : Level) : bool := 0 <? feature_id l.
Definition has_status (l : Level) (status : Z) : bool :=
  0 <? Z.land (rate_status l) status.


(** ** The world the methods run in *)

(** One entry per call that leaves the two modules. *)
Inductive Event :=
| SongCacheGet (key : Z)
| SongCachePut (key : Z)
| LevelCacheGet (key : Z)
| LevelCachePut (key : Z)
| SqlFetchSong (key : Z)
| SqlFetchLevel (key : Z)
| SqlInsertSong (p : SongParams PyFloat)
| SqlInsertLevel (p : LevelParams)
| PostRequest (song_id : Z)
| LogError (msg : string)
| LogDebug (msg : string)
| UserFromId (key : Z)
| PathExists (level_id : Z)
| FileRead (level_id : Z)
| FileWrite (level_id : Z) (contents : string).

(** Modelled from the spec: the In-Memory Entity Cache ([glob.song_cache],
    [glob.level_cache]; [objects/glob.py] is not among the sources) is a
    mapping from integer identifier to entity, [cache(id, entity)] stores or
    overwrites the entry, [get(id)] returns the entity or an absence value.
    The payload files live under [conf.dir_levels], one per level
    identifier. *)
Record World := mkWorld {
  song_cache : gmap Z Song;
  level_cache : gmap Z Level;
  sql : Store;
  files : gmap Z string;
  now : Z;
  trace : list Event;
}.

(** State and exceptions: what a method has done to the world stays done
    when it raises. *)
Definition M (A : Type) : Type := World -> Res A * World.

Definition ret {A} (a : A) : M A := fun w => (Ok a, w).
Definition raise {A} (e : Exn) : M A := fun w => (Raise e, w).
Definition bind {A B} (m : M A) (k : A -> M B) : M B :=
  fun w => match m w with
           | (Ok a, w') => k a w'
           | (Raise e, w') => (Raise e, w')
           end.

Notation "x <- m ;; k" := (bind m (fun x => k))
  (at level 100, m at next level, right associativity).
Notation "m ;;; k" := (bind m (fun _ => k))
  (at level 100, right associativity).

(** The world after the calls [evs] have been made, in that order. *)
Definition record_events (evs : list Event) (w : World) : World :=
  {| song_cache := song_cache w; level_cache := level_cache w;
     sql := sql w; files := files w; now := now w;
     trace := trace w ++ evs |}.

Definition emit (e : Event) : M unit :=
  fun w => (Ok tt, record_events [e] w).

Definition with_song_cache (f : gmap Z Song -> gmap Z Song) : M unit :=
  fun w => (Ok tt,
            {| song_cache := f (song_cache w); level_cache := level_cache w;
               sql := sql w; files := files w; now := now w;
               trace := trace w |}).

Definition with_sql {A} (f : Store -> A * Store) : M A :=
  fun w => let '(a, s) := f (sql w) in
           (Ok a,
            {| song_cache := song_cache w; level_cache := level_cache w;
               sql := s; files := files w; now := now w;
               trace := trace w |}).

Definition with_files (f : gmap Z string -> gmap Z string) : M unit :=
  fun w => (Ok tt,
            {| song_cache := song_cache w; level_cache := level_cache w;
               sql := sql w; files := f (files w); now := now w;
               trace := trace w |}).

Definition read_world {A} (f : World -> A) : M A := fun w => (Ok (f w), w).

(** [glob.song_cache.get], [glob.song_cache.cache], [glob.level_cache.get] *)
Definition song_cache_get (k : Z) : M (option Song) :=
  emit (SongCacheGet k) ;;; read_world (fun w => song_cache w !! k).
Definition song_cache_cache (k : Z) (s : Song) : M unit :=
  emit (SongCachePut k) ;;; with_song_cache (insert k s).
Definition level_cache_get (k : Z) : M (option Level) :=
  emit (LevelCacheGet k) ;;; read_world (fun w => level_cache w !! k).

(** [glob.sql.fetchone] and [glob.sql.execute] for the four statements *)
Definition sql_fetchone_song (k : Z) : M (option (SongRow PyFloat)) :=
  emit (SqlFetchSong k) ;;; read_world (fun w => fetchone_song (sql w) k).
Definition sql_fetchone_level (k : Z) : M (option LevelRow) :=
  emit (SqlFetchLevel k) ;;; read_world (fun w => fetchone_level (sql w) k).
Definition sql_execute_song (p : SongParams PyFloat) : M Z :=
  emit (SqlInsertSong p) ;;; with_sql (fun s => execute_insert_song s p).
Definition sql_execute_level (p : LevelParams) : M Z :=
  emit (SqlInsertLevel p) ;;; with_sql (fun s => execute_insert_level s p).

(** Python truthiness of an identifier: [None] and [0] are falsy. *)
Definition truthy (i : option Z) : option Z :=
  match i with
  | Some k => if k =? 0 then None else Some k
  | None => None
  end.

(** ** [objects/song.py]: resolution and persistence *)

(** [Song.from_sql] *)
Definition Song_from_sql (k : Z) : M (option Song) :=
  song_db <- sql_fetchone_song k ;;
  match song_db with
  | None => ret None
  | Some r =>
      ret (Some {| song_id := sr_id r; song_title := sr_title r;
                   song_author_id := sr_author_id r;
                   song_author_name := sr_author_name r;
                   song_size := sr_size r;
                   song_author_yt := sr_author_yt r;
                   song_url := sr_download r |})
  end.

(** [parsed_resp[k]], [int(...)] and [float(...)] with the exceptions they
    raise *)
Definition dict_item (d : gmap Z string) (k : Z) : M string :=
  match d !! k with
  | Some v => ret v
  | None => raise (KeyError k)
  end.
Definition int_of (s : string) : M Z :=
  match py_int s with
  | Some z => ret z
  | None => raise (ValueError s)
  end.
Definition float_of (s : string) : M PyFloat :=
  match py_float s with
  | Some f => ret f
  | None => raise (ValueError s)
  end.

Definition invalid_response_msg (k : Z) : string :=
  "Boomlings Private Song API sent an invalid response for the song ID of "
  +:+ pretty k.

(** [Song.from_boomlings] *)
Definition Song_from_boomlings (k : Z) : M (option Song) :=
  emit (PostRequest k) ;;;
  let boomlings_data := post_request k in
  if is_numeric boomlings_data || bool_decide (boomlings_data = "")
  then
    emit (LogError (invalid_response_msg k)) ;;;
    emit (LogDebug ("Boomlings Reply: " +:+ boomlings_data)) ;;;
    ret None
  else
    let parsed_resp := parse_to_dict boomlings_data in
    v1 <- dict_item parsed_resp 1 ;;
    i <- int_of v1 ;;
    title <- dict_item parsed_resp 2 ;;
    v3 <- dict_item parsed_resp 3 ;;
    author_id <- int_of v3 ;;
    author_name <- dict_item parsed_resp 4 ;;
    v5 <- dict_item parsed_resp 5 ;;
    size <- float_of v5 ;;
    author_yt <- dict_item parsed_resp 7 ;;
    url <- dict_item parsed_resp 10 ;;
    ret (Some {| song_id := i; song_title := title;
                 song_author_id := author_id;
                 song_author_name := author_name; song_size := size;
                 song_author_yt := author_yt; song_url := url |}).

(** The parameter tuple of [Song.insert]: the identifier has been replaced
    by [None] when it was the sentinel [-1]. *)
Definition insert_params (s : Song) : SongParams PyFloat :=
  {| sp_id := if song_id s =? -1 then None else Some (song_id s);
     sp_title := song_title s; sp_author_id := song_author_id s;
     sp_author_name := song_author_name s; sp_size := song_size s;
     sp_author_yt := song_author_yt s; sp_url := song_url s |}.

(** [Song.insert]; the result is the object after the call. *)
Definition Song_insert (s : Song) : M Song :=
  new_id <- sql_execute_song (insert_params s) ;;
  ret (Song_set_id s new_id).

(** [Song.from_id] *)
Definition Song_from_id (i : option Z) : M (option Song) :=
  match truthy i with
  | None => ret (Some Song_new)
  | Some k =>
      c <- song_cache_get k ;;
      match c with
      | Some s => ret (Some s)
      | None =>
          q <- Song_from_sql k ;;
          match q with
          | Some s => song_cache_cache (song_id s) s ;;; ret (Some s)
          | None =>
              b <- Song_from_boomlings k ;;
              match b with
              | Some s =>
                  s' <- Song_insert s ;;
                  song_cache_cache (song_id s') s' ;;;
                  ret (Some s')
              | None => ret None
              end
          end
      end
  end.


(** ** [objects/level.py]: payload access *)

Definition with_level_cache (f : gmap Z Level -> gmap Z Level) : M unit :=
  fun w => (Ok tt,
            {| song_cache := song_cache w; level_cache := f (level_cache w);
               sql := sql w; files := files w; now := now w;
               trace := trace w |}).

Definition level_cache_cache (k : Z) (l : Level) : M unit :=
  emit (LevelCachePut k) ;;; with_level_cache (insert k l).

(** [Level.path]: the location is determined by the identifier, so the
    identifier stands for the path; [None] when nothing exists there. *)
Definition path (l : Level) : M (option Z) :=
  emit (PathExists (id l)) ;;;
  read_world (fun w => match files w !! id l with
                       | Some _ => Some (id l)
                       | None => None
                       end).

(** [aiofiles.open(p, "r")] followed by [f.read()] *)
Definition file_read (p : Z) : M string :=
  emit (FileRead p) ;;;
  f <- read_world (fun w => files w !! p) ;;
  match f with
  | Some contents => ret contents
  | None => raise (FileNotFoundError (pretty p))
  end.

(** [aiofiles.open(..., "w+")] followed by [f.write(contents)] *)
Definition file_write (p : Z) (contents : string) : M unit :=
  emit (FileWrite p contents) ;;; with_files (insert p contents).

(** [Level.load]; the result is the returned value and the object after
    the call. *)
Definition load (l : Level) : M (option string * Level) :=
  if bool_decide (_cache l <> "") then ret (Some (_cache l), l)
  else
    p <- path l ;;
    match p with
    | None => ret (None, l)
    | Some p =>
        contents <- file_read p ;;
        let l' := if getsizeof contents <=? MAX_CACHE_SIZE
                  then Level_set_cache l contents else l in
        ret (Some contents, l')
    end.

(** [Level.write]; the result is the object after the call. *)
Definition write (l : Level) (contents : string) : M Level :=
  let l' := if getsizeof contents <=? MAX_CACHE_SIZE
            then Level_set_cache l contents else l in
  file_write (id l') contents ;;;
  ret l'.

(** [Level.cache] *)
Definition cache (l : Level) : M unit := level_cache_cache (id l) l.

(** ** [objects/level.py]: resolution *)

(** [Level._fetch_comments]: its body is a bare ellipsis. *)
Definition _fetch_comments (l : Level) : M unit := ret tt.

(** [Level.from_sql].  The function ends without a [return] statement
    after filling [self], and its early exit is a bare [return]: the value
    is [None] on both paths. *)
Definition from_sql (level_id : Z) (full : bool) : M (option Level) :=
  let self := Level_new in
  level_db <- sql_fetchone_level level_id ;;
  match level_db with
  | None => ret None
  | Some r =>
      emit (UserFromId (lr_user_id r)) ;;;
      let creator' := User_from_id (lr_user_id r) in
      song' <- Song_from_id (lr_song_id r) ;;
      let self :=
        {| id := lr_id r; name := lr_name r; creator := creator';
           comments := comments self; description := lr_description r;
           song := match song' with
                   | Some s => SongObj s
                   | None => SongNone
                   end;
           track_id := lr_track_id r; level_version := lr_level_ver r;
           length := lr_length r; dual := lr_duals r;
           unlisted := lr_unlisted r; extra_str := lr_extra_str r;
           replay := lr_replay r; game_version := lr_game_version r;
           binary_version := lr_binary_version r;
           timestamp := lr_timestamp r; likes := lr_likes r;
           downloads := lr_downloads r; stars := lr_stars r;
           difficulty := lr_difficulty r; demon_diff := lr_demon_diff r;
           coins := lr_coins r; coins_verified := lr_coins_verified r;
           requested_stars := lr_requested_stars r;
           feature_id := lr_featured_id r; rate_status := lr_rate_status r;
           ldm := lr_ldm r; objects := lr_objects r;
           password := lr_password r; working_time := lr_working_time r;
           _cache := _cache self |} in
      (if full then _fetch_comments self else ret tt) ;;;
      ret None
  end.

(** What awaiting [Level.from_id] yields: the cached level, or the
    coroutine object made by the call [Level.from_sql(level_id, True)],
    which [from_id] returns without awaiting it. *)
Inductive FromId :=
| Cached (l : Level)
| Coroutine (level_id : Z) (full : bool).

(** [Level.from_id] *)
Definition from_id (level_id : Z) : M FromId :=
  cache_l <- level_cache_get level_id ;;
  match cache_l with
  | Some l => ret (Cached l)
  | None => ret (Coroutine level_id true)
  end.

(** Awaiting the value [from_id] returned, as a caller has to do to run
    the store lookup at all. *)
Definition await (r : FromId) : M (option Level) :=
  match r with
  | Cached l => ret (Some l)
  | Coroutine level_id full => from_sql level_id full
  end.

(** ** [objects/level.py]: persistence *)

(** [self.creator.id] and [self.song.id] *)
Definition creator_id (l : Level) : M Z :=
  match creator l with
  | Some u => ret (User_id u)
  | None => raise (AttributeError "id")
  end.
Definition song_ref_id (l : Level) : M Z :=
  match song l with
  | SongObj s => ret (song_id s)
  | SongNone | SongCoroutine _ => raise (AttributeError "id")
  end.

(** [Level.insert]; the result is the object after the call. *)
Definition insert (l : Level) : M Level :=
  if negb (id l =? 0)
  then raise (FileExistsError
                "Level is already uploaded (has ID assigned).")
  else
    timestamp' <- read_world now ;;
    cid <- creator_id l ;;
    sid <- song_ref_id l ;;
    new_id <- sql_execute_level
                {| lp_name := name l; lp_user_id := cid;
                   lp_description := description l; lp_song_id := sid;
                   lp_replay := replay l;
                   lp_game_version := game_version l;
                   lp_binary_version := binary_version l;
                   lp_timestamp := timestamp';
                   lp_coins := coins l;
                   lp_requested_stars := requested_stars l;
                   lp_ldm := Z.b2z (ldm l); lp_objects := objects l;
                   lp_password := password l;
                   lp_working_time := working_time l;
                   lp_level_ver := level_version l;
                   lp_track_id := track_id l; lp_length := length l;
                   lp_duals := Z.b2z (dual l);
                   lp_unlisted := Z.b2z (unlisted l) |} ;;
    ret (Level_set_id l new_id).

(** The keyword arguments of [Level.update]: one optional entry per key of
    its docstring, absent when the caller did not pass the key. *)
Record Kwargs := mkKwargs {
  kw_name : option string;
  kw_desc : option string;
  kw_version : option Z;
  kw_length : option Z;
  kw_ldm : option bool;
  kw_coins : option Z;
  kw_coins_verified : option bool;
  kw_verified_coins : option bool;
  kw_dual : option bool;
  kw_password : option Z;
  kw_objects : option Z;
  kw_song_id : option Z;
  kw_work_time : option Z;
  kw_unlisted : option bool;
  kw_game_version : option Z;
  kw_binary_version : option Z;
  kw_track_id : option Z;
  kw_replay : option string;
  kw_feature_id : option Z;
  kw_epic : option bool;
  kw_downloads : option Z;
  kw_likes : option Z;
}.

(** [Level.update]; the result is the object after the call. *)
Definition update (l : Level) (kwargs : Kwargs) : M Level :=
  if id l =? 0 then raise (FileNotFoundError "Level has not been uploaded yet.")
  else
    let '(song', track_id') :=
      match truthy (kw_song_id kwargs) with
      | Some song_id => (SongCoroutine song_id, 0)
      | None => (song l, default 0 (kw_track_id kwargs))
      end in
    ret {| id := id l;
           name := default (name l) (kw_name kwargs);
           creator := creator l; comments := comments l;
           description := default (description l) (kw_desc kwargs);
           song := song';
           track_id := default track_id' (kw_track_id kwargs);
           level_version := default (level_version l) (kw_version kwargs);
           length := default (length l) (kw_length kwargs);
           dual := default (dual l) (kw_dual kwargs);
           unlisted := default (unlisted l) (kw_unlisted kwargs);
           extra_str := extra_str l; replay := replay l;
           game_version := default (game_version l) (kw_game_version kwargs);
           binary_version :=
             default (binary_version l) (kw_binary_version kwargs);
           timestamp := timestamp l; likes := likes l;
           downloads := downloads l; stars := stars l;
           difficulty := difficulty l; demon_diff := demon_diff l;
           coins := default (coins l) (kw_coins kwargs);
           coins_verified :=
             default (coins_verified l) (kw_verified_coins kwargs);
           requested_stars := requested_stars l;
           feature_id := feature_id l; rate_status := rate_status l;
           ldm := default (ldm l) (kw_ldm kwargs);
           objects := default (objects l) (kw_objects kwargs);
           password := default (password l) (kw_password kwargs);
           working_time := default (working_time l) (kw_work_time kwargs);
           _cache := _cache l |}.

(** [n] successive calls of [load] on the same instance, oldest result
    first. *)
Fixpoint load_repeatedly (n : nat) (l : Level)
  : M (list (option string) * Level) :=
  match n with
  | O => ret ([], l)
  | S n' =>
      r <- load l ;;
      rs <- load_repeatedly n' (snd r) ;;
      ret (fst r :: fst rs, snd rs)
  end.

(** Number of store writes and of cache insertions among recorded calls *)
Definition is_store_insert (e : Event) : bool :=
  match e with
  | SqlInsertSong _ | SqlInsertLevel _ => true
  | _ => false
  end.
Definition is_cache_insert (e : Event) : bool :=
  match e with
  | SongCachePut _ | LevelCachePut _ => true
  | _ => false
  end.
Definition is_lookup (e : Event) : bool :=
  match e with
  | SongCacheGet _ | LevelCacheGet _ | SqlFetchSong _ | SqlFetchLevel _
  | PostRequest _ => true
  | _ => false
  end.
Definition is_catalog_request (e : Event) : bool :=
  match e with
  | PostRequest _ => true
  | _ => false
  end.
Definition already_uploaded : string :=
  "Level is already uploaded (has ID assigned).".
Definition not_uploaded : string := "Level has not been uploaded yet.".

(** The parameter tuple of [Level.insert] for a level whose creator and
    song objects carry the identifiers [cid] and [sid] *)
Definition level_params (l : Level) (cid sid timestamp' : Z) : LevelParams :=
  {| lp_name := name l; lp_user_id := cid;
     lp_description := description l; lp_song_id := sid;
     lp_replay := replay l; lp_game_version := game_version l;
     lp_binary_version := binary_version l; lp_timestamp := timestamp';
     lp_coins := coins l; lp_requested_stars := requested_stars l;
     lp_ldm := Z.b2z (ldm l); lp_objects := objects l;
     lp_password := password l; lp_working_time := working_time l;
     lp_level_ver := level_version l; lp_track_id := track_id l;
     lp_length := length l; lp_duals := Z.b2z (dual l);
     lp_unlisted := Z.b2z (unlisted l) |}.

(** A computation that leaves the shared level cache as it found it *)
Definition keeps_level_cache {A} (m : M A) : Prop :=
  forall w, level_cache (snd (m w)) = level_cache w.

(** Keyword arguments naming nothing, one song, one track, or a name *)
Definition no_kwargs : Kwargs :=
  mkKwargs None None None None None None None None None None None
           None None None None None None None None None None None.
Definition only_song_id (i : Z) : Kwargs :=
  mkKwargs None None None None None None None None None None None
           (Some i) None None None None None None None None None None.
Definition only_track_id (t : Z) : Kwargs :=
  mkKwargs None None None None None None None None None None None
           None None None None None (Some t) None None None None None.
Definition only_name (n : string) : Kwargs :=
  mkKwargs (Some n) None None None None None None None None None None
           None None None None None None None None None None None.

Definition count_events (f : Event -> bool) (evs : list Event) : nat :=
  List.length (List.filter f evs).

(** The song [Song.from_sql] builds from a row *)
Definition song_of_row (r : SongRow PyFloat) : Song :=
  {| song_id := sr_id r; song_title := sr_title r;
     song_author_id := sr_author_id r;
     song_author_name := sr_author_name r; song_size := sr_size r;
     song_author_yt := sr_author_yt r; song_url := sr_download r |}.

(** The row a store holds after it has executed the statement of
    [Song.insert] with the parameters [p] and given it the identifier [i]:
    the columns in the order of the statement's column list. *)
Definition row_of_params (i : Z) (p : SongParams PyFloat) : SongRow PyFloat :=
  {| sr_id := i; sr_title := sp_title p; sr_author_id := sp_author_id _ p;
     sr_author_name := sp_author_name _ p; sr_size := sp_size _ p;
     sr_author_yt := sp_author_yt _ p; sr_download := sp_url _ p |}.

(** The keys [Song.from_boomlings] reads from the decoded reply *)
Definition required_keys : list Z := [1; 2; 3; 4; 5; 7; 10].

(** The keyword arguments without the keys that the docstring of
    [Level.update] lists but its body never reads *)
Definition without_unread_keys (kwargs : Kwargs) : Kwargs :=
  {| kw_name := kw_name kwargs; kw_desc := kw_desc kwargs;
     kw_version := kw_version kwargs; kw_length := kw_length kwargs;
     kw_ldm := kw_ldm kwargs; kw_coins := kw_coins kwargs;
     kw_coins_verified := None;
     kw_verified_coins := kw_verified_coins kwargs;
     kw_dual := kw_dual kwargs; kw_password := kw_password kwargs;
     kw_objects := kw_objects kwargs; kw_song_id := kw_song_id kwargs;
     kw_work_time := kw_work_time kwargs;
     kw_unlisted := kw_unlisted kwargs;
     kw_game_version := kw_game_version kwargs;
     kw_binary_version := kw_binary_version kwargs;
     kw_track_id := kw_track_id kwargs; kw_replay := None;
     kw_feature_id := None; kw_epic := None; kw_downloads := None;
     kw_likes := None |}.

(** Keyword arguments naming a song and a track at once *)
Definition song_and_track (i t : Z) : Kwargs :=
  mkKwargs None None None None None None None None None None None
           (Some i) None None None None (Some t) None None None None None.

Definition Level_set_song (l : Level) (r : SongRef) : Level :=
  {| id := id l; name := name l; creator := creator l; comments := comments l;
     description := description l; song := r; track_id := track_id l;
     level_version := level_version l; length := length l; dual := dual l;
     unlisted := unlisted l; extra_str := extra_str l; replay := replay l;
     game_version := game_version l; binary_version := binary_version l;
     timestamp := timestamp l; likes := likes l; downloads := downloads l;
     stars := stars l; difficulty := difficulty l;
     demon_diff := demon_diff l; coins := coins l;
     coins_verified := coins_verified l;
     requested_stars := requested_stars l; feature_id := feature_id l;
     rate_status := rate_status l; ldm := ldm l; objects := objects l;
     password := password l; working_time := working_time l;
     _cache := _cache l |}.

End GDPyS.

(** ** [helpers/common.py] *)

Section Common.

(** JSON values with the encoder [json.dump(..., indent=4)] and the
    decoder [json.load], which fails on text that is not JSON. *)
Variable Json : Type.
Variable json_dump : Json -> string.
Variable json_load : string -> option Json.

(** The files on disk, by path *)
Definition Disk : Type := gmap string string.

Record JsonFile := mkJsonFile {
  file : option Json;
  file_name : string;
}.

(** [JsonFile.__init__]: the content stays [None] when no file exists;
    [json.load] raises on a file that does not decode. *)
Definition JsonFile_init (name : string) (disk : Disk) : Res JsonFile :=
  match disk !! name with
  | Some text =>
      match json_load text with
      | Some v => Ok {| file := Some v; file_name := name |}
      | None => Raise (ValueError text)
      end
  | None => Ok {| file := None; file_name := name |}
  end.

(** [JsonFile.get_file] *)
Definition get_file (j : JsonFile) : option Json := file j.

(** [JsonFile.write_file]; the result is the object and the disk after
    the call. *)
Definition write_file (j : JsonFile) (new_content : Json) (disk : Disk)
  : JsonFile * Disk :=
  ({| file := Some new_content; file_name := file_name j |},
   <[file_name j := json_dump new_content]> disk).

(** [dict_keys]: a dictionary is the list of its items in insertion
    order; the tuple of its keys keeps that order. *)
Definition dict_keys {K V : Type} (d : list (K * V)) : list K := d.*1.

End Common.

(** ** Sizes of a string *)

(** A [string] is read as a Python [str] whose code points are the values
    of its characters (0 to 255). *)
Definition code_point (c : ascii) : Z := Z.of_N (N_of_ascii c).

(** Character count, [len(s)] *)
Definition char_count (s : string) : Z := Z.of_nat (String.length s).

(** Size of the UTF-8 encoding, [len(s.encode())]: code points from 128 on
    take two bytes. *)
Fixpoint encoded_size (s : string) : Z :=
  match s with
  | EmptyString => 0
  | String c s' => (if code_point c <? 128 then 1 else 2) + encoded_size s'
  end.

Fixpoint is_ascii_str (s : string) : bool :=
  match s with
  | EmptyString => true
  | String c s' => (code_point c <? 128) && is_ascii_str s'
  end.

(** [sys.getsizeof] on a [str] in 64-bit CPython 3.3 to 3.11: the object
    header (49 bytes for a compact ASCII string, 73 for the other
    one-byte-per-character strings) plus one byte per character. *)
Definition cpython_getsizeof (s : string) : Z :=
  (if is_ascii_str s then 49 else 73) + char_count s.

(** ** A concrete set of collaborators *)

Module Demo.

Definition digit_of (c : ascii) : option Z :=
  let n := code_point c in
  if (48 <=? n) && (n <=? 57) then Some (n - 48) else None.

Fixpoint digits_value (s : string) (acc : Z) : option Z :=
  match s with
  | EmptyString => Some acc
  | String c s' =>
      match digit_of c with
      | Some d => digits_value s' (10 * acc + d)
      | None => None
      end
  end.

(** [int(s)] on optionally signed decimal literals *)
Definition parse_int (s : string) : option Z :=
  match s with
  | EmptyString => None
  | String "-" EmptyString => None
  | String "-" s' => Z.opp <$> digits_value s' 0
  | _ => digits_value s 0
  end.

(** Modelled from the spec: [is_numeric], which [objects/song.py] imports
    from [helpers.common] although that module does not define it; a body
    is numeric-only when it reads as an integer, as the catalog's error
    replies do. *)
Definition numeric_only (s : string) : bool :=
  match parse_int s with
  | Some _ => true
  | None => false
  end.

Fixpoint split_go (sep s : string) (skip : nat) (cur : string)
  : list string :=
  match s with
  | EmptyString => [cur]
  | String c s' =>
      match skip with
      | S k => split_go sep s' k cur
      | O =>
          if String.prefix sep s
          then cur :: split_go sep s' (String.length sep - 1) EmptyString
          else split_go sep s' O (cur +:+ String c EmptyString)
      end
  end.

Fixpoint pair_up (l : list string) : gmap Z string :=
  match l with
  | k :: v :: rest =>
      match parse_int k with
      | Some i => <[i := v]> (pair_up rest)
      | None => pair_up rest
      end
  | _ => ∅
  end.

(** Modelled from the spec: the decoder [parse_to_dict] of [utils.gdform]
    (not among the sources) turns the catalog's delimited key-value wire
    format into a mapping with integer keys. *)
Definition decode (body : string) : gmap Z string :=
  pair_up (split_go "~|~" body O EmptyString).

(** Modelled from the spec: the Persistent Store Adapter ([glob.sql] is
    not among the sources): [fetchone] returns the row or nothing,
    [execute] stores the row and returns its identifier, a generated one
    when the statement carries none. *)
Record Tables := mkTables {
  songs : gmap Z (SongRow string);
  levels : gmap Z LevelRow;
  next_song : Z;
  next_level : Z;
}.

Definition insert_song (t : Tables) (p : SongParams string) : Z * Tables :=
  let i := default (next_song t) (sp_id p) in
  (i, {| songs := <[i := {| sr_id := i; sr_title := sp_title p;
                            sr_author_id := sp_author_id _ p;
                            sr_author_name := sp_author_name _ p;
                            sr_size := sp_size _ p;
                            sr_author_yt := sp_author_yt _ p;
                            sr_download := sp_url _ p |}]> (songs t);
         levels := levels t;
         next_song := Z.max (next_song t) (i + 1);
         next_level := next_level t |}).

Definition insert_level (t : Tables) (p : LevelParams) : Z * Tables :=
  let i := next_level t in
  (i, {| songs := songs t;
         levels := <[i := {| lr_id := i; lr_name := lp_name p;
                             lr_user_id := lp_user_id p;
                             lr_description := lp_description p;
                             lr_song_id := Some (lp_song_id p);
                             lr_extra_str := EmptyString;
                             lr_replay := lp_replay p;
                             lr_game_version := lp_game_version p;
                             lr_binary_version := lp_binary_version p;
                             lr_timestamp := lp_timestamp p;
                             lr_downloads := 0; lr_likes := 0;
                             lr_stars := 0; lr_difficulty := 0;
                             lr_demon_diff := 0; lr_coins := lp_coins p;
                             lr_coins_verified := false;
                             lr_requested_stars := lp_requested_stars p;
                             lr_featured_id := 0; lr_rate_status := 0;
                             lr_ldm := negb (lp_ldm p =? 0);
                             lr_objects := lp_objects p;
                             lr_password := lp_password p;
                             lr_working_time := lp_working_time p;
                             lr_level_ver := lp_level_ver p;
                             lr_track_id := lp_track_id p;
                             lr_length := lp_length p;
                             lr_duals := negb (lp_duals p =? 0);
                             lr_unlisted := negb (lp_unlisted p =? 0) |}]>
                     (levels t);
         next_song := next_song t;
         next_level := i + 1 |}).

(** The reply of the external catalog: a record for song 803223, the
    error reply [-1] for song 404, an empty body otherwise. *)
Definition catalog (song_id : Z) : string :=
  if song_id =? 803223 then
    "1~|~803223~|~2~|~Arcana~|~3~|~9~|~4~|~Xtrullor~|~5~|~7.25~|~6~|~~|~7~|~UC~|~10~|~http://x"
  else if song_id =? 404 then "-1"
  else EmptyString.

(** Floats are kept as their decimal literal. *)
#[global] Instance collaborators : Collaborators :=
  {| PyFloat := string; float_zero := "0.0"; py_float := Some;
     py_int := parse_int; getsizeof := cpython_getsizeof;
     User := Z; User_new := 0; User_id := fun u => u; User_from_id := Some;
     Comment := string; Difficulty_NA := 0;
     Store := Tables;
     fetchone_song := fun t k => songs t !! k;
     fetchone_level := fun t k => levels t !! k;
     execute_insert_song := insert_song;
     execute_insert_level := insert_level;
     post_request := catalog; is_numeric := numeric_only;
     parse_to_dict := decode |}.

Definition no_tables : Tables :=
  {| songs := ∅; levels := ∅; next_song := 1; next_level := 1 |}.

(** A world with empty caches, empty tables and no payload files *)
Definition cold : World :=
  @mkWorld collaborators ∅ ∅ no_tables ∅ 1600000000 [].

(** A level row as [Level.insert] would have left it, stored under 7 *)
Definition row7 : LevelRow :=
  {| lr_id := 7; lr_name := "Stereo"; lr_user_id := 3;
     lr_description := ""; lr_song_id := Some 0;
     lr_extra_str := EmptyString; lr_replay := ""; lr_game_version := 22;
     lr_binary_version := 35; lr_timestamp := 1600000000;
     lr_downloads := 0; lr_likes := 0; lr_stars := 0; lr_difficulty := 0;
     lr_demon_diff := 0; lr_coins := 0; lr_coins_verified := false;
     lr_requested_stars := 0; lr_featured_id := 0; lr_rate_status := 0;
     lr_ldm := false; lr_objects := 100; lr_password := 0;
     lr_working_time := 0; lr_level_ver := 1; lr_track_id := 2;
     lr_length := 1; lr_duals := false; lr_unlisted := false |}.

(** Level 7 is in the store and in no cache. *)
Definition level_in_store : World :=
  @mkWorld collaborators ∅ ∅
    {| songs := ∅; levels := {[ 7 := row7 ]}; next_song := 1;
       next_level := 8 |}
    ∅ 1600000000 [].

(** The level file of level 1 holds [payload]. *)
Definition with_payload (payload : string) : World :=
  @mkWorld collaborators ∅ ∅ no_tables {[ 1 := payload ]} 1600000000 [].

(** A level that has been given the identifier 1 *)
Definition uploaded : Level := Level_set_id Level_new 1.

(** A song that already has the identifier 5 *)
Definition song5 : Song := Song_set_id Song_new 5.

(** The record the external catalog holds for song 803223 *)
Definition arcana : Song :=
  {| song_id := 803223; song_title := "Arcana"; song_author_id := 9;
     song_author_name := "Xtrullor"; song_size := "7.25";
     song_author_yt := "UC"; song_url := "http://x" |}.

Fixpoint letters (n : nat) : string :=
  match n with
  | O => EmptyString
  | S n' => String "a" (letters n')
  end.

(** ASCII payloads of 4990 and of 6000 characters *)
Definition near_payload : string := letters (Z.to_nat 4990).
Definition big_payload : string := letters (Z.to_nat 6000).

End Demo.

(** ** Collaborators whose catalog sends a record without a title *)

Module Partial.

Definition catalog (song_id : Z) : string := "1~|~77~|~3~|~9".

Definition collaborators : Collaborators :=
  {| PyFloat := string; float_zero := "0.0"; py_float := Some;
     py_int := Demo.parse_int; getsizeof := cpython_getsizeof;
     User := Z; User_new := 0; User_id := fun u => u; User_from_id := Some;
     Comment := string; Difficulty_NA := 0;
     Store := Demo.Tables;
     fetchone_song := fun t k => Demo.songs t !! k;
     fetchone_level := fun t k => Demo.levels t !! k;
     execute_insert_song := Demo.insert_song;
     execute_insert_level := Demo.insert_level;
     post_request := catalog; is_numeric := Demo.numeric_only;
     parse_to_dict := Demo.decode |}.

Definition cold : @World collaborators :=
  @mkWorld collaborators ∅ ∅ Demo.no_tables ∅ 1600000000 [].

End Partial.

(** ** Worlds in which the caches and the store hold something *)

Module Scenes.
Import Demo.

(** The row of song 803223 *)
Definition arcana_row : SongRow string :=
  {| sr_id := 803223; sr_title := "Arcana"; sr_author_id := 9;
     sr_author_name := "Xtrullor"; sr_size := "7.25";
     sr_author_yt := "UC"; sr_download := "http://x" |}.

(** A level row that names song 803223 *)
Definition row9 : LevelRow :=
  {| lr_id := 9; lr_name := "Deadlocked"; lr_user_id := 3;
     lr_description := ""; lr_song_id := Some 803223;
     lr_extra_str := EmptyString; lr_replay := ""; lr_game_version := 22;
     lr_binary_version := 35; lr_timestamp := 1600000000;
     lr_downloads := 0; lr_likes := 0; lr_stars := 10; lr_difficulty := 0;
     lr_demon_diff := 0; lr_coins := 0; lr_coins_verified := false;
     lr_requested_stars := 0; lr_featured_id := 0; lr_rate_status := 0;
     lr_ldm := false; lr_objects := 100; lr_password := 0;
     lr_working_time := 0; lr_level_ver := 1; lr_track_id := 0;
     lr_length := 1; lr_duals := false; lr_unlisted := false |}.

(** Song 5 is in the song cache. *)
Definition song_cached : World :=
  @mkWorld collaborators {[ 5 := song5 ]} ∅ no_tables ∅ 1600000000 [].

(** Song 803223 and level 9 are in the store, the caches are empty. *)
Definition stored : World :=
  @mkWorld collaborators ∅ ∅
    {| songs := {[ 803223 := arcana_row ]}; levels := {[ 9 := row9 ]};
       next_song := 803224; next_level := 10 |}
    ∅ 1600000000 [].


(** A fresh level whose song attribute is [None] *)
Definition songless : Level := Level_set_song Level_new SongNone.

(** A level whose rating status has the bits 1 and 4 set *)
Definition rated : Level :=
  {| id := 1; name := ""; creator := Some 0; comments := [];
     description := ""; song := SongObj Song_new; track_id := 0;
     level_version := 0; length := 0; dual := false; unlisted := false;
     extra_str := default_extra_str; replay := ""; game_version := 22;
     binary_version := 35; timestamp := 0; likes := 0; downloads := 0;
     stars := 0; difficulty := 0; demon_diff := 0; coins := 0;
     coins_verified := false; requested_stars := 0; feature_id := 0;
     rate_status := 5; ldm := false; objects := 0; password := 0;
     working_time := 0; _cache := "" |}.

End Scenes.

(** * Properties *)

Section Properties.
Context `{C : Collaborators}.

#[local] Arguments Song_from_boomlings : simpl never.
#[local] Arguments Song_insert : simpl never.
#[local] Arguments song_cache_cache : simpl never.
#[local] Arguments Song_from_id : simpl never.
#[local] Arguments load : simpl never.
#[local] Arguments insert : simpl never.
#[local] Arguments update : simpl never.

(** Unfold the monad and the primitive operations, then compute. *)
Ltac step :=
  unfold bind, emit, read_world, ret, raise; cbn.

Lemma record_events_twice (a b : list Event) (w : World) :
  record_events b (record_events a w) = record_events (a ++ b) w.
Proof.
  unfold record_events; simpl. by rewrite app_assoc.
Qed.

Lemma truthy_nonzero (k : Z) : k <> 0 -> truthy (Some k) = Some k.
Proof.
  intros Hk. unfold truthy. destruct (Z.eqb_spec k 0); [done | done].
Qed.

(** The first two tiers miss: the cache and the store have been asked
    once each, nothing else has happened. *)
Lemma Song_from_id_two_misses (k : Z) (w : World) :
  k <> 0 ->
  song_cache w !! k = None ->
  fetchone_song (sql w) k = None ->
  Song_from_id (Some k) w =
  match Song_from_boomlings k
          (record_events [SongCacheGet k; SqlFetchSong k] w) with
  | (Ok (Some s), w1) =>
      match Song_insert s w1 with
      | (Ok s', w2) =>
          (Ok (Some s'),
           snd (song_cache_cache (song_id s') s' w2))
      | (Raise e, w2) => (Raise e, w2)
      end
  | (Ok None, w1) => (Ok None, w1)
  | (Raise e, w1) => (Raise e, w1)
  end.
Proof.
  intros Hk Hc Hs. unfold Song_from_id. rewrite (truthy_nonzero k Hk).
  unfold song_cache_get, Song_from_sql, sql_fetchone_song. step.
  rewrite Hc. cbn. rewrite Hs, record_events_twice. cbn.
  by destruct (Song_from_boomlings k _) as [[[s|]|e] w1].
Qed.

(** A reply that is numeric or empty: one request, two log lines, no
    song. *)
Lemma Song_from_boomlings_invalid (k : Z) (w : World) :
  is_numeric (post_request k) = true \/ post_request k = "" ->
  Song_from_boomlings k w =
  (Ok None,
   record_events
     [PostRequest k; LogError (invalid_response_msg k);
      LogDebug ("Boomlings Reply: " +:+ post_request k)] w).
Proof.
  intros Hbad. unfold Song_from_boomlings.
  assert (is_numeric (post_request k)
          || bool_decide (post_request k = "") = true) as ->.
  { destruct Hbad as [-> | ->]; [done |].
    rewrite bool_decide_eq_true_2; [apply orb_true_r | done]. }
  step. by rewrite !record_events_twice.
Qed.

Lemma Song_insert_run (s : Song) (w : World) :
  Song_insert s w =
  (Ok (Song_set_id s (fst (execute_insert_song (sql w) (insert_params s)))),
   {| song_cache := song_cache w; level_cache := level_cache w;
      sql := snd (execute_insert_song (sql w) (insert_params s));
      files := files w; now := now w;
      trace := trace w ++ [SqlInsertSong (insert_params s)] |}).
Proof.
  unfold Song_insert, sql_execute_song, with_sql. step.
  by destruct (execute_insert_song (sql w) (insert_params s)).
Qed.

(** The call of the external catalog neither reads nor changes anything
    but the record of calls. *)
Lemma Song_from_boomlings_world (k : Z) (w : World) :
  exists evs,
    Song_from_boomlings k w =
    (fst (Song_from_boomlings k w), record_events (PostRequest k :: evs) w).
Proof.
  unfold Song_from_boomlings. step.
  destruct (is_numeric _ || bool_decide _).
  - eexists [_; _]. by rewrite !record_events_twice.
  - exists []. unfold dict_item, int_of, float_of. step.
    repeat (match goal with
            | |- context [match ?x with Some _ => _ | None => _ end] =>
                destruct x; cbn
            end); done.
Qed.

Lemma Song_from_boomlings_hit (k : Z) (s : Song) (w : World) :
  fst (Song_from_boomlings k w) = Ok (Some s) ->
  forall w', Song_from_boomlings k w' =
             (Ok (Some s), record_events [PostRequest k] w').
Proof.
  unfold Song_from_boomlings. step.
  destruct (is_numeric _ || bool_decide _); [done |].
  unfold dict_item, int_of, float_of. step.
  repeat (match goal with
          | |- context [match ?x with Some _ => _ | None => _ end] =>
              destruct x; cbn; try done
          end).
  intros [= <-]. done.
Qed.

(** C9. Resolving a song with a falsy identifier ([0] or [None]) returns
    the freshly constructed empty song at once: the world after the call is
    the world before it, so neither the cache, nor the store, nor the
    external catalog has been asked. *)
Theorem Song_from_id_falsy_shortcut (i : option Z) (w : World) :
  truthy i = None ->
  Song_from_id i w = (Ok (Some Song_new), w)
  /\ count_events is_lookup (trace (snd (Song_from_id i w)))
     = count_events is_lookup (trace w).
Proof.
  intros Hi. unfold Song_from_id. rewrite Hi. done.
Qed.

(** C8. When the cache and the store miss and the reply of the external
    catalog is empty or numeric, song resolution logs an error and the raw
    reply and returns [None] without raising; the catalog has been asked
    exactly once and neither the store nor the cache has been written. *)
Theorem Song_from_id_malformed_reply (k : Z) (w : World) :
  k <> 0 ->
  song_cache w !! k = None ->
  fetchone_song (sql w) k = None ->
  is_numeric (post_request k) = true \/ post_request k = "" ->
  let calls :=
    [SongCacheGet k; SqlFetchSong k; PostRequest k;
     LogError (invalid_response_msg k);
     LogDebug ("Boomlings Reply: " +:+ post_request k)] in
  Song_from_id (Some k) w = (Ok None, record_events calls w)
  /\ count_events is_catalog_request calls = 1%nat
  /\ count_events is_store_insert calls = 0%nat
  /\ count_events is_cache_insert calls = 0%nat.
Proof.
  intros Hk Hc Hs Hbad calls. split; [| done].
  rewrite (Song_from_id_two_misses k w Hk Hc Hs).
  rewrite (Song_from_boomlings_invalid k _ Hbad).
  by rewrite record_events_twice.
Qed.

(** C5. When the cache and the store miss and the external catalog has the
    song, resolution makes five calls in this order: cache lookup, store
    fetch, catalog request, store insert, cache insert.  There is exactly
    one store insert and exactly one cache insert, the store insert comes
    first, and the entity returned is the one that was stored and cached. *)
Theorem Song_from_id_external_hit (k : Z) (s : Song) (w : World) :
  k <> 0 ->
  song_cache w !! k = None ->
  fetchone_song (sql w) k = None ->
  fst (Song_from_boomlings k w) = Ok (Some s) ->
  let p := insert_params s in
  let new_id := fst (execute_insert_song (sql w) p) in
  let s' := Song_set_id s new_id in
  let calls :=
    [SongCacheGet k; SqlFetchSong k; PostRequest k] ++
    [SqlInsertSong p; SongCachePut new_id] in
  Song_from_id (Some k) w =
  (Ok (Some s'),
   {| song_cache := <[new_id := s']> (song_cache w);
      level_cache := level_cache w;
      sql := snd (execute_insert_song (sql w) p);
      files := files w; now := now w;
      trace := trace w ++ calls |})
  /\ count_events is_store_insert calls = 1%nat
  /\ count_events is_cache_insert calls = 1%nat.
Proof.
  intros Hk Hc Hs Hext p new_id s' calls. split; [| done].
  rewrite (Song_from_id_two_misses k w Hk Hc Hs).
  rewrite (Song_from_boomlings_hit k s w Hext).
  rewrite Song_insert_run. unfold song_cache_cache.
  step. fold p new_id s'. by rewrite <- !app_assoc.
Qed.

(** ** Payload access *)

Lemma record_events_nil (w : World) : record_events [] w = w.
Proof.
  destruct w. unfold record_events; cbn. by rewrite app_nil_r.
Qed.

Lemma load_from_cache (l : Level) (w : World) :
  _cache l <> "" -> load l w = (Ok (Some (_cache l), l), w).
Proof.
  intros Hc. unfold load. by rewrite bool_decide_eq_true_2.
Qed.

Lemma load_from_storage (l : Level) (w : World) (c : string) :
  _cache l = "" ->
  files w !! id l = Some c ->
  load l w =
  (Ok (Some c,
       if getsizeof c <=? MAX_CACHE_SIZE then Level_set_cache l c else l),
   record_events [PathExists (id l); FileRead (id l)] w).
Proof.
  intros Hc Hf. unfold load. rewrite Hc.
  rewrite bool_decide_eq_false_2 by (intros H; by apply H).
  unfold path, file_read. step. rewrite Hf. cbn. rewrite Hf. cbn.
  by rewrite record_events_twice.
Qed.

Lemma load_without_file (l : Level) (w : World) :
  _cache l = "" ->
  files w !! id l = None ->
  load l w = (Ok (None, l), record_events [PathExists (id l)] w).
Proof.
  intros Hc Hf. unfold load. rewrite Hc.
  rewrite bool_decide_eq_false_2 by (intros H; by apply H).
  unfold path. step. by rewrite Hf.
Qed.

Lemma load_repeatedly_large (l : Level) (c : string) (n : nat) :
  _cache l = "" ->
  MAX_CACHE_SIZE < getsizeof c ->
  forall w,
    files w !! id l = Some c ->
    load_repeatedly n l w =
    (Ok (replicate n (Some c), l),
     record_events
       (List.concat (replicate n [PathExists (id l); FileRead (id l)])) w).
Proof.
  intros Hc Hbig. induction n as [| n IH]; intros w Hf.
  - cbn. unfold ret. by rewrite record_events_nil.
  - cbn [load_repeatedly]. unfold bind at 1.
    rewrite (load_from_storage l w c Hc Hf).
    assert ((getsizeof c <=? MAX_CACHE_SIZE) = false) as -> by lia.
    cbn [snd fst]. unfold bind at 1. rewrite IH by done.
    unfold ret. cbn [fst snd replicate List.concat].
    by rewrite record_events_twice.
Qed.

(** C7 (as the code has it). With no held cache and an existing payload
    file, [load] returns the payload after one existence check and one
    read, and keeps it in the instance cache exactly when
    [sys.getsizeof] of the payload string is at most 5000; a payload above
    that is not cached, and each of any number of later [load] calls checks
    and reads the file again. *)
Theorem load_caches_by_object_size (l : Level) (w : World) (c : string) :
  _cache l = "" ->
  files w !! id l = Some c ->
  let l' := if getsizeof c <=? MAX_CACHE_SIZE
            then Level_set_cache l c else l in
  let calls := [PathExists (id l); FileRead (id l)] in
  load l w = (Ok (Some c, l'), record_events calls w)
  /\ (getsizeof c <= MAX_CACHE_SIZE -> _cache l' = c)
  /\ (MAX_CACHE_SIZE < getsizeof c ->
      _cache l' = ""
      /\ forall n : nat,
           load_repeatedly n l w =
           (Ok (replicate n (Some c), l),
            record_events (List.concat (replicate n calls)) w)).
Proof.
  intros Hc Hf l' calls. split; [by apply load_from_storage |].
  subst l'. split.
  - intros Hsmall.
    by assert ((getsizeof c <=? MAX_CACHE_SIZE) = true) as -> by lia.
  - intros Hbig.
    assert ((getsizeof c <=? MAX_CACHE_SIZE) = false) as -> by lia.
    split; [done |]. intros n. by apply load_repeatedly_large.
Qed.

(** [write] with contents whose object size is within the threshold
    replaces the instance cache. *)
Lemma write_small (l : Level) (c : string) (w : World) :
  getsizeof c <= MAX_CACHE_SIZE ->
  write l c w =
  (Ok (Level_set_cache l c),
   {| song_cache := song_cache w; level_cache := level_cache w;
      sql := sql w; files := <[id l := c]> (files w); now := now w;
      trace := trace w ++ [FileWrite (id l) c] |}).
Proof.
  intros Hs. unfold write, file_write, with_files.
  assert ((getsizeof c <=? MAX_CACHE_SIZE) = true) as -> by lia.
  by step.
Qed.

(** [write] with larger contents leaves the instance cache as it was. *)
Lemma write_large (l : Level) (c : string) (w : World) :
  MAX_CACHE_SIZE < getsizeof c ->
  write l c w =
  (Ok l,
   {| song_cache := song_cache w; level_cache := level_cache w;
      sql := sql w; files := <[id l := c]> (files w); now := now w;
      trace := trace w ++ [FileWrite (id l) c] |}).
Proof.
  intros Hs. unfold write, file_write, with_files.
  assert ((getsizeof c <=? MAX_CACHE_SIZE) = false) as -> by lia.
  by step.
Qed.

(** ** Persistence of levels *)

Lemma insert_unassigned (l : Level) (w : World) (u : User) (s : Song) :
  id l = 0 ->
  creator l = Some u ->
  song l = SongObj s ->
  let p := level_params l (User_id u) (song_id s) (now w) in
  insert l w =
  (Ok (Level_set_id l (fst (execute_insert_level (sql w) p))),
   {| song_cache := song_cache w; level_cache := level_cache w;
      sql := snd (execute_insert_level (sql w) p);
      files := files w; now := now w;
      trace := trace w ++ [SqlInsertLevel p] |}).
Proof.
  intros Hid Hu Hs p. unfold insert, creator_id, song_ref_id.
  rewrite Hid, Hu, Hs. unfold sql_execute_level, with_sql. step.
  fold (level_params l (User_id u) (song_id s) (now w)). fold p.
  by destruct (execute_insert_level (sql w) p).
Qed.

Lemma insert_assigned (l : Level) (w : World) :
  id l <> 0 -> insert l w = (Raise (FileExistsError already_uploaded), w).
Proof.
  intros Hid. unfold insert.
  by destruct (Z.eqb_spec (id l) 0).
Qed.

(** C6 (as the code has it). [Level.insert] on a level that already has a
    non-zero identifier raises [FileExistsError] and leaves the world as it
    was: no call reaches the store. *)
Theorem Level_insert_create_once (l : Level) (w : World) :
  id l <> 0 ->
  insert l w = (Raise (FileExistsError already_uploaded), w)
  /\ count_events is_store_insert (trace (snd (insert l w)))
     = count_events is_store_insert (trace w).
Proof.
  intros Hid. rewrite (insert_assigned l w Hid). done.
Qed.

Lemma update_unassigned (l : Level) (kwargs : Kwargs) (w : World) :
  id l = 0 ->
  update l kwargs w = (Raise (FileNotFoundError not_uploaded), w).
Proof.
  intros Hid. unfold update. by rewrite Hid.
Qed.

(** An update that names a truthy [song_id] and no [track_id] stores the
    un-awaited song lookup and resets the track identifier. *)
Lemma update_song_id (l : Level) (kwargs : Kwargs) (w : World) (i : Z) :
  id l <> 0 ->
  truthy (kw_song_id kwargs) = Some i ->
  exists l', update l kwargs w = (Ok l', w)
             /\ song l' = SongCoroutine i
             /\ track_id l' = default 0 (kw_track_id kwargs).
Proof.
  intros Hid Hs. unfold update.
  destruct (Z.eqb_spec (id l) 0); [done |]. rewrite Hs.
  eexists; split; [reflexivity |]. done.
Qed.

(** An update without a truthy [song_id] takes the track identifier from
    the arguments, [0] when they name none, and leaves the song where it
    was. *)
Lemma update_no_song_id (l : Level) (kwargs : Kwargs) (w : World) :
  id l <> 0 ->
  truthy (kw_song_id kwargs) = None ->
  exists l', update l kwargs w = (Ok l', w)
             /\ song l' = song l
             /\ track_id l' = default 0 (kw_track_id kwargs).
Proof.
  intros Hid Hs. unfold update.
  destruct (Z.eqb_spec (id l) 0); [done |]. rewrite Hs.
  eexists; split; [reflexivity |]. cbn. by destruct (kw_track_id kwargs).
Qed.

(** Every attribute other than [song] and [track_id] keeps its value
    unless the arguments name it. *)
Lemma update_frame (l : Level) (kwargs : Kwargs) (w : World) :
  id l <> 0 ->
  exists l', update l kwargs w = (Ok l', w)
    /\ id l' = id l /\ creator l' = creator l /\ comments l' = comments l
    /\ extra_str l' = extra_str l /\ replay l' = replay l
    /\ timestamp l' = timestamp l /\ likes l' = likes l
    /\ downloads l' = downloads l /\ stars l' = stars l
    /\ difficulty l' = difficulty l /\ demon_diff l' = demon_diff l
    /\ requested_stars l' = requested_stars l
    /\ feature_id l' = feature_id l /\ rate_status l' = rate_status l
    /\ _cache l' = _cache l
    /\ name l' = default (name l) (kw_name kwargs)
    /\ description l' = default (description l) (kw_desc kwargs)
    /\ level_version l' = default (level_version l) (kw_version kwargs)
    /\ length l' = default (length l) (kw_length kwargs)
    /\ ldm l' = default (ldm l) (kw_ldm kwargs)
    /\ coins l' = default (coins l) (kw_coins kwargs)
    /\ coins_verified l'
       = default (coins_verified l) (kw_verified_coins kwargs)
    /\ dual l' = default (dual l) (kw_dual kwargs)
    /\ password l' = default (password l) (kw_password kwargs)
    /\ objects l' = default (objects l) (kw_objects kwargs)
    /\ working_time l' = default (working_time l) (kw_work_time kwargs)
    /\ unlisted l' = default (unlisted l) (kw_unlisted kwargs)
    /\ game_version l'
       = default (game_version l) (kw_game_version kwargs)
    /\ binary_version l'
       = default (binary_version l) (kw_binary_version kwargs).
Proof.
  intros Hid. unfold update.
  destruct (Z.eqb_spec (id l) 0); [done |].
  destruct (truthy (kw_song_id kwargs));
    (eexists; split; [reflexivity |]; repeat split).
Qed.

(** ** Resolution of levels *)

Lemma keeps_ret {A} (a : A) : keeps_level_cache (ret a).
Proof. by intros w. Qed.

Lemma keeps_raise {A} (e : Exn) : keeps_level_cache (raise (A := A) e).
Proof. by intros w. Qed.

Lemma keeps_emit (e : Event) : keeps_level_cache (emit e).
Proof. by intros w. Qed.

Lemma keeps_read_world {A} (f : World -> A) :
  keeps_level_cache (read_world f).
Proof. by intros w. Qed.

Lemma keeps_with_song_cache f : keeps_level_cache (with_song_cache f).
Proof. by intros w. Qed.

Lemma keeps_with_sql {A} (f : Store -> A * Store) :
  keeps_level_cache (with_sql f).
Proof. intros w. unfold with_sql. by destruct (f (sql w)). Qed.

Lemma keeps_bind {A B} (m : M A) (k : A -> M B) :
  keeps_level_cache m -> (forall a, keeps_level_cache (k a)) ->
  keeps_level_cache (bind m k).
Proof.
  intros Hm Hk w. unfold bind. specialize (Hm w).
  destruct (m w) as [[a | e] w1]; cbn in *; [| done].
  by rewrite Hk.
Qed.

Create HintDb keeps.
#[local] Hint Resolve keeps_ret keeps_raise keeps_emit keeps_read_world
  keeps_with_song_cache keeps_with_sql : keeps.

Ltac keeps :=
  repeat first
    [ apply keeps_bind; [| intros ?]
    | solve [auto with keeps]
    | match goal with
      | |- keeps_level_cache (match ?x with _ => _ end) => destruct x
      | |- keeps_level_cache (if ?b then _ else _) => destruct b
      end ].

Lemma keeps_Song_from_id (i : option Z) : keeps_level_cache (Song_from_id i).
Proof.
  unfold Song_from_id, song_cache_get, Song_from_sql, sql_fetchone_song,
    Song_from_boomlings, Song_insert, sql_execute_song, song_cache_cache,
    dict_item, int_of, float_of.
  keeps.
Qed.

(** [Level.from_sql] never touches the level cache. *)
Lemma keeps_from_sql (level_id : Z) (full : bool) :
  keeps_level_cache (from_sql level_id full).
Proof.
  unfold from_sql, sql_fetchone_level, _fetch_comments.
  pose proof keeps_Song_from_id. keeps.
Qed.

(** [Level.from_sql] never returns a level. *)
Lemma from_sql_returns_none (level_id : Z) (full : bool) (w : World) :
  forall l, fst (from_sql level_id full w) <> Ok (Some l).
Proof.
  intros l. unfold from_sql, sql_fetchone_level, _fetch_comments. step.
  destruct (fetchone_level (sql w) level_id) as [r |]; [| done].
  destruct (Song_from_id _ _) as [[s | e] w1]; [| done].
  by destruct full.
Qed.

(** On a cache miss [Level.from_id] asks nothing but the cache and hands
    back the un-awaited store lookup. *)
Lemma from_id_miss (level_id : Z) (w : World) :
  level_cache w !! level_id = None ->
  from_id level_id w =
  (Ok (Coroutine level_id true), record_events [LevelCacheGet level_id] w).
Proof.
  intros Hc. unfold from_id, level_cache_get. step. by rewrite Hc.
Qed.

Lemma from_id_hit (level_id : Z) (l : Level) (w : World) :
  level_cache w !! level_id = Some l ->
  from_id level_id w =
  (Ok (Cached l), record_events [LevelCacheGet level_id] w).
Proof.
  intros Hc. unfold from_id, level_cache_get. step. by rewrite Hc.
Qed.

(** ** The placeholder song *)

Lemma Song_from_id_asks_cache (k : Z) (w : World) :
  k <> 0 ->
  exists evs,
    trace (snd (Song_from_id (Some k) w)) = trace w ++ SongCacheGet k :: evs.
Proof.
  intros Hk. unfold Song_from_id. rewrite (truthy_nonzero k Hk).
  unfold song_cache_get, Song_from_sql, sql_fetchone_song. step.
  destruct (song_cache w !! k) as [s |]; cbn; [by exists [] |].
  destruct (fetchone_song (sql w) k) as [r |]; cbn.
  { eexists. unfold song_cache_cache. step.
    rewrite <- !app_assoc. reflexivity. }
  destruct (Song_from_boomlings_world k
              (record_events [SqlFetchSong k]
                 (record_events [SongCacheGet k] w))) as [evs ->].
  destruct (fst (Song_from_boomlings k _)) as [[s |] | e]; cbn.
  - rewrite Song_insert_run. unfold song_cache_cache. step.
    eexists. rewrite <- !app_assoc. reflexivity.
  - eexists. rewrite <- !app_assoc. reflexivity.
  - eexists. rewrite <- !app_assoc. reflexivity.
Qed.

(** C10. A freshly constructed song, and so the placeholder returned for
    the identifier [0], carries the identifier [-1].  That identifier is
    truthy: resolving it does not take the shortcut but asks the cache
    for [-1], and inserting a fresh level sends [-1] as its song
    identifier to the store. *)
Theorem placeholder_song_has_sentinel_id (w : World) :
  song_id Song_new = -1
  /\ Song_from_id (Some 0) w = (Ok (Some Song_new), w)
  /\ truthy (Some (song_id Song_new)) = Some (-1)
  /\ (exists evs,
        trace (snd (Song_from_id (Some (song_id Song_new)) w))
        = trace w ++ SongCacheGet (-1) :: evs)
  /\ (exists p,
        trace (snd (insert Level_new w)) = trace w ++ [SqlInsertLevel p]
        /\ lp_song_id p = -1).
Proof.
  split; [done |]. split; [done |]. split; [done |]. split.
  - by apply (Song_from_id_asks_cache (-1) w).
  - eexists. rewrite (insert_unassigned Level_new w User_new Song_new)
      by done. split; reflexivity.
Qed.

(** * Further properties of the two modules *)

(** ** Song resolution *)

Lemma Song_from_id_hit_run (k : Z) (s : Song) (w : World) :
  k <> 0 ->
  song_cache w !! k = Some s ->
  Song_from_id (Some k) w = (Ok (Some s), record_events [SongCacheGet k] w).
Proof.
  intros Hk Hc. unfold Song_from_id. rewrite (truthy_nonzero k Hk).
  unfold song_cache_get. step. by rewrite Hc.
Qed.

Lemma Song_from_id_store_run (k : Z) (r : SongRow PyFloat) (w : World) :
  k <> 0 ->
  song_cache w !! k = None ->
  fetchone_song (sql w) k = Some r ->
  Song_from_id (Some k) w =
  (Ok (Some (song_of_row r)),
   {| song_cache := <[sr_id r := song_of_row r]> (song_cache w);
      level_cache := level_cache w; sql := sql w; files := files w;
      now := now w;
      trace := trace w ++
               [SongCacheGet k; SqlFetchSong k; SongCachePut (sr_id r)] |}).
Proof.
  intros Hk Hc Hs. unfold Song_from_id. rewrite (truthy_nonzero k Hk).
  unfold song_cache_get, Song_from_sql, sql_fetchone_song, song_cache_cache,
    with_song_cache. step.
  rewrite Hc. cbn. rewrite Hs. cbn. unfold song_of_row.
  by rewrite <- !app_assoc.
Qed.

(** X1. A song that is in the cache is returned from it: resolution asks
    the cache once and makes no other call, whatever the store and the
    external catalog hold. *)
Theorem Song_from_id_cache_hit (k : Z) (s : Song) (w : World) :
  k <> 0 ->
  song_cache w !! k = Some s ->
  Song_from_id (Some k) w = (Ok (Some s), record_events [SongCacheGet k] w)
  /\ count_events is_store_insert [SongCacheGet k] = 0%nat
  /\ count_events is_catalog_request [SongCacheGet k] = 0%nat.
Proof.
  intros Hk Hc. split; [by apply Song_from_id_hit_run | done].
Qed.

(** X2. A song that is in the store and not in the cache is returned as
    the row reads, and put into the cache under the identifier of the row;
    the external catalog is not asked and the store is not written. *)
Theorem Song_from_id_store_hit (k : Z) (r : SongRow PyFloat) (w : World) :
  k <> 0 ->
  song_cache w !! k = None ->
  fetchone_song (sql w) k = Some r ->
  let calls := [SongCacheGet k; SqlFetchSong k; SongCachePut (sr_id r)] in
  Song_from_id (Some k) w =
  (Ok (Some (song_of_row r)),
   {| song_cache := <[sr_id r := song_of_row r]> (song_cache w);
      level_cache := level_cache w; sql := sql w; files := files w;
      now := now w; trace := trace w ++ calls |})
  /\ count_events is_catalog_request calls = 0%nat
  /\ count_events is_store_insert calls = 0%nat.
Proof.
  intros Hk Hc Hs calls. split; [by apply Song_from_id_store_run | done].
Qed.

(** X3. Whenever resolution gets a song from a tier below the cache, that
    song is in the cache under its own identifier afterwards, and, if that
    identifier is not 0, resolving it is then a pure cache hit. *)
Theorem Song_from_id_backfills (k : Z) (s : Song) (w w' : World) :
  k <> 0 ->
  song_cache w !! k = None ->
  Song_from_id (Some k) w = (Ok (Some s), w') ->
  song_cache w' !! song_id s = Some s
  /\ (song_id s <> 0 ->
      Song_from_id (Some (song_id s)) w'
      = (Ok (Some s), record_events [SongCacheGet (song_id s)] w')).
Proof.
  intros Hk Hc Hrun.
  assert (song_cache w' !! song_id s = Some s) as Hin.
  { destruct (fetchone_song (sql w) k) as [r |] eqn:Hs.
    - rewrite (Song_from_id_store_run k r w Hk Hc Hs) in Hrun.
      injection Hrun as <- <-. cbn. apply lookup_insert_eq.
    - rewrite (Song_from_id_two_misses k w Hk Hc Hs) in Hrun.
      destruct (Song_from_boomlings k _) as [[[s0 |] | e] w1]; try done.
      rewrite Song_insert_run in Hrun. unfold song_cache_cache in Hrun.
      revert Hrun. step. intros [= <- <-]. cbn. apply lookup_insert_eq. }
  split; [exact Hin |]. intros Hid. by apply Song_from_id_hit_run.
Qed.

(** X4. [Song.insert] makes exactly one store call, and the identifier it
    sends is never the sentinel [-1]: a song carrying the sentinel is sent
    without identifier, any other song with the identifier it carries. *)
Theorem Song_insert_never_sends_sentinel (s : Song) (w : World) :
  trace (snd (Song_insert s w)) = trace w ++ [SqlInsertSong (insert_params s)]
  /\ sp_id (insert_params s) <> Some (-1)
  /\ sp_id (insert_params s)
     = (if bool_decide (song_id s = -1) then None else Some (song_id s))
  /\ fst (Song_insert s w)
     = Ok (Song_set_id s
             (fst (execute_insert_song (sql w) (insert_params s)))).
Proof.
  rewrite Song_insert_run. cbn.
  destruct (Z.eqb_spec (song_id s) (-1)) as [Heq | Hne].
  - rewrite bool_decide_eq_true_2 by done. done.
  - rewrite bool_decide_eq_false_2 by done.
    repeat split; try done. intros [= H]. done.
Qed.

(** X5. The statement of [Song.insert] and the query of [Song.from_sql]
    agree on the columns: on a store that gives back the row it was handed,
    fetching a song right after inserting it returns the inserted song,
    with the identifier the store assigned. *)
Theorem Song_insert_then_from_sql (s : Song) (w : World) :
  let p := insert_params s in
  let r := execute_insert_song (sql w) p in
  fetchone_song (snd r) (fst r) = Some (row_of_params (fst r) p) ->
  exists w1 w2,
    Song_insert s w = (Ok (Song_set_id s (fst r)), w1)
    /\ Song_from_sql (fst r) w1 = (Ok (Some (Song_set_id s (fst r))), w2)
    /\ trace w2 = trace w ++ [SqlInsertSong p; SqlFetchSong (fst r)].
Proof.
  intros p r Hback. rewrite Song_insert_run. fold p r.
  do 2 eexists. split; [reflexivity |].
  unfold Song_from_sql, sql_fetchone_song. step. rewrite Hback. cbn.
  split; [reflexivity |]. cbn. by rewrite <- app_assoc.
Qed.

(** A reply that passes the validity check and lacks one of the keys read
    from it makes [Song.from_boomlings] raise after the request. *)
Lemma Song_from_boomlings_incomplete (k key : Z) (w : World) :
  is_numeric (post_request k) = false ->
  post_request k <> "" ->
  key ∈ required_keys ->
  parse_to_dict (post_request k) !! key = None ->
  exists e,
    ((exists j, j ∈ required_keys /\ e = KeyError j)
     \/ exists arg, e = ValueError arg)
    /\ Song_from_boomlings k w = (Raise e, record_events [PostRequest k] w).
Proof.
  intros Hnum Hne Hkey Hmiss. unfold Song_from_boomlings.
  rewrite Hnum, bool_decide_eq_false_2 by done.
  unfold dict_item, int_of, float_of. step.
  assert (forall j, j ∈ required_keys ->
            exists e : Exn,
              ((exists j, j ∈ required_keys /\ e = KeyError j)
               \/ exists arg, e = ValueError arg)
              /\ e = KeyError j) as Hkeyerr
    by (intros j Hj; eexists; split; [left; by exists j | done]).
  assert (forall arg,
            exists e : Exn,
              ((exists j, j ∈ required_keys /\ e = KeyError j)
               \/ exists arg, e = ValueError arg)
              /\ e = ValueError arg) as Hvalerr
    by (intros arg; eexists; split; [right; by eexists | done]).
  repeat (match goal with
          | |- context [parse_to_dict _ !! ?j] =>
              destruct (parse_to_dict _ !! j) eqn:?; cbn;
              [| destruct (Hkeyerr j) as (e & He & ->);
                 [apply list_elem_of_In; cbn; tauto | by exists (KeyError j)]]
          | |- context [py_int ?v] =>
              destruct (py_int v); cbn;
              [| destruct (Hvalerr v) as (e & He & ->);
                 by exists (ValueError v)]
          | |- context [py_float ?v] =>
              destruct (py_float v); cbn;
              [| destruct (Hvalerr v) as (e & He & ->);
                 by exists (ValueError v)]
          end).
  unfold required_keys in Hkey.
  rewrite !elem_of_cons, elem_of_nil in Hkey.
  destruct Hkey as [-> | [-> | [-> | [-> | [-> | [-> | [-> | []]]]]]]];
    congruence.
Qed.

(** X6. A reply of the external catalog that is neither numeric nor empty
    but lacks one of the keys 1, 2, 3, 4, 5, 7, 10 is not absorbed: when
    the cache and the store miss, resolution raises ([KeyError] for a
    missing key, or [ValueError] for an earlier field that does not
    convert) after one catalog request, and nothing has been written to
    the store or to the cache. *)
Theorem Song_from_id_incomplete_reply (k key : Z) (w : World) :
  k <> 0 ->
  song_cache w !! k = None ->
  fetchone_song (sql w) k = None ->
  is_numeric (post_request k) = false ->
  post_request k <> "" ->
  key ∈ required_keys ->
  parse_to_dict (post_request k) !! key = None ->
  exists e,
    ((exists j, j ∈ required_keys /\ e = KeyError j)
     \/ exists arg, e = ValueError arg)
    /\ Song_from_id (Some k) w =
       (Raise e,
        record_events [SongCacheGet k; SqlFetchSong k; PostRequest k] w).
Proof.
  intros Hk Hc Hs Hnum Hne Hkey Hmiss.
  destruct (Song_from_boomlings_incomplete k key
              (record_events [SongCacheGet k; SqlFetchSong k] w)
              Hnum Hne Hkey Hmiss) as (e & He & Hrun).
  exists e. split; [exact He |].
  rewrite (Song_from_id_two_misses k w Hk Hc Hs), Hrun.
  by rewrite record_events_twice.
Qed.

(** ** Level resolution *)


(** X8. [Level.cache] puts the level into the shared cache under its own
    identifier and leaves every other entry alone; a following
    [Level.from_id] for that identifier returns the very level that was
    cached. *)
Theorem cache_then_from_id (l : Level) (w : World) :
  let w1 := snd (cache l w) in
  fst (cache l w) = Ok tt
  /\ level_cache w1 = <[id l := l]> (level_cache w)
  /\ (forall k, k <> id l -> level_cache w1 !! k = level_cache w !! k)
  /\ fst (from_id (id l) w1) = Ok (Cached l)
  /\ trace (snd (from_id (id l) w1))
     = trace w ++ [LevelCachePut (id l); LevelCacheGet (id l)].
Proof.
  unfold cache, level_cache_cache, with_level_cache, from_id,
    level_cache_get. step.
  split; [done |]. split; [done |]. split.
  { intros k Hk. by rewrite lookup_insert_ne. }
  rewrite lookup_insert_eq. cbn. split; [done |].
  by rewrite <- app_assoc.
Qed.

(** X9. For every identifier, store and flag, [Level.from_sql] yields no
    level (it returns [None] or lets an exception of the song lookup
    through) and leaves the shared level cache as it was. *)
Theorem from_sql_yields_no_level (level_id : Z) (full : bool) (w : World) :
  (forall l, fst (from_sql level_id full w) <> Ok (Some l))
  /\ level_cache (snd (from_sql level_id full w)) = level_cache w.
Proof.
  split.
  - apply from_sql_returns_none.
  - apply keeps_from_sql.
Qed.

(** X10. [Level.from_sql] for an identifier the store does not have makes
    one store fetch and nothing else: no user lookup, no song lookup. *)
Theorem from_sql_missing_row (level_id : Z) (full : bool) (w : World) :
  fetchone_level (sql w) level_id = None ->
  from_sql level_id full w
  = (Ok None, record_events [SqlFetchLevel level_id] w).
Proof.
  intros Hrow. unfold from_sql, sql_fetchone_level. step. by rewrite Hrow.
Qed.

(** X11. [Level.from_sql] resolves the song of the row through
    [Song.from_id]: when the row names a song that is in the store and not
    in the cache, the song is in the song cache afterwards, although the
    call returns no level.  The calls are the level fetch, the user
    lookup, then the three calls of the song lookup. *)
Theorem from_sql_warms_song_cache (level_id k : Z) (full : bool)
    (r : LevelRow) (sr : SongRow PyFloat) (w : World) :
  fetchone_level (sql w) level_id = Some r ->
  lr_song_id r = Some k ->
  k <> 0 ->
  song_cache w !! k = None ->
  fetchone_song (sql w) k = Some sr ->
  from_sql level_id full w =
  (Ok None,
   {| song_cache := <[sr_id sr := song_of_row sr]> (song_cache w);
      level_cache := level_cache w; sql := sql w; files := files w;
      now := now w;
      trace := trace w ++
               [SqlFetchLevel level_id; UserFromId (lr_user_id r);
                SongCacheGet k; SqlFetchSong k; SongCachePut (sr_id sr)] |}).
Proof.
  intros Hrow Hsong Hk Hc Hs.
  unfold from_sql, sql_fetchone_level, _fetch_comments. step.
  rewrite Hrow, Hsong. cbn.
  rewrite (Song_from_id_store_run k sr _ Hk) by done.
  cbn. destruct full; cbn; by rewrite <- !app_assoc.
Qed.

(** ** Payload access, continued *)

(** X12. With no held cache and no payload file, [load] returns [None]
    after a single existence check: nothing is read and the instance stays
    as it was. *)
Theorem load_missing_file (l : Level) (w : World) :
  _cache l = "" ->
  files w !! id l = None ->
  load l w = (Ok (None, l), record_events [PathExists (id l)] w).
Proof.
  intros Hc Hf. by apply load_without_file.
Qed.

(** X13. While the instance holds a non-empty cached payload, any number
    of [load] calls returns that payload and never goes to the file
    store, whatever the file holds or whether it exists. *)
Theorem load_repeatedly_cached (l : Level) (w : World) (n : nat) :
  _cache l <> "" ->
  load_repeatedly n l w = (Ok (replicate n (Some (_cache l)), l), w).
Proof.
  intros Hc. induction n as [| n IH]; [done |].
  cbn [load_repeatedly]. unfold bind at 1.
  rewrite (load_from_cache l w Hc). cbn [fst snd].
  unfold bind at 1. rewrite IH. done.
Qed.


(** X15. [write] checks nothing about the level: for every level, also
    one with the unassigned identifier 0, it overwrites the payload file of
    the level's identifier, touches no other file, and makes exactly one
    file-store call; the level keeps its identifier. *)
Theorem write_overwrites_own_file (l : Level) (c : string) (w : World) :
  let w1 := snd (write l c w) in
  (exists l1, fst (write l c w) = Ok l1 /\ id l1 = id l)
  /\ files w1 !! id l = Some c
  /\ (forall k, k <> id l -> files w1 !! k = files w !! k)
  /\ trace w1 = trace w ++ [FileWrite (id l) c]
  /\ sql w1 = sql w /\ level_cache w1 = level_cache w.
Proof.
  destruct (Z.leb_spec (getsizeof c) MAX_CACHE_SIZE) as [Hsmall | Hbig].
  - rewrite (write_small l c w Hsmall). cbn.
    split; [by eexists |]. split; [apply lookup_insert_eq |].
    split; [| done]. intros k Hk. by rewrite lookup_insert_ne.
  - rewrite (write_large l c w Hbig). cbn.
    split; [by eexists |]. split; [apply lookup_insert_eq |].
    split; [| done]. intros k Hk. by rewrite lookup_insert_ne.
Qed.

(** ** Persistence of levels, continued *)

(** X16. A first [insert] of an unassigned level makes one store call,
    stamped with the current time, and gives the level the identifier the
    store returned; if that identifier is not 0, a second [insert] on the
    resulting level raises [FileExistsError] and makes no store call. *)
Theorem insert_twice (l : Level) (w : World) (u : User) (s : Song) :
  id l = 0 ->
  creator l = Some u ->
  song l = SongObj s ->
  let p := level_params l (User_id u) (song_id s) (now w) in
  let new_id := fst (execute_insert_level (sql w) p) in
  new_id <> 0 ->
  exists w1,
    insert l w = (Ok (Level_set_id l new_id), w1)
    /\ trace w1 = trace w ++ [SqlInsertLevel p]
    /\ lp_timestamp p = now w
    /\ insert (Level_set_id l new_id) w1
       = (Raise (FileExistsError already_uploaded), w1).
Proof.
  intros Hid Hu Hs p new_id Hnew.
  rewrite (insert_unassigned l w u s Hid Hu Hs). fold p new_id.
  eexists. split; [reflexivity |]. split; [done |]. split; [done |].
  by apply insert_assigned.
Qed.

(** X17. [insert] reads the identifier of the song object before it calls
    the store: on an unassigned level whose song attribute is not a song
    object ([None], or the coroutine left by [update]) it raises
    [AttributeError] and the store is not called. *)
Theorem insert_without_song_object (l : Level) (w : World) (u : User) :
  id l = 0 ->
  creator l = Some u ->
  (forall s, song l <> SongObj s) ->
  insert l w = (Raise (AttributeError "id"), w).
Proof.
  intros Hid Hu Hs. unfold insert, creator_id, song_ref_id.
  rewrite Hid, Hu. step. by destruct (song l) as [s | |]; [destruct (Hs s) | |].
Qed.

(** X18. [update] changes the object only: it makes no call to the store
    or to anything else, on any level and any arguments.  It raises
    [FileNotFoundError] exactly when the level has the identifier 0, and
    otherwise returns a level with the same identifier. *)
Theorem update_leaves_world (l : Level) (kwargs : Kwargs) (w : World) :
  snd (update l kwargs w) = w
  /\ (id l = 0 ->
      fst (update l kwargs w) = Raise (FileNotFoundError not_uploaded))
  /\ (id l <> 0 ->
      exists l', fst (update l kwargs w) = Ok l' /\ id l' = id l).
Proof.
  unfold update. destruct (Z.eqb_spec (id l) 0) as [Hz | Hnz].
  - split; [done |]. split; [done |]. intros Hid. done.
  - destruct (truthy (kw_song_id kwargs));
      (split; [done |]; split; [done |]; intros _; by eexists).
Qed.

(** X19. The keys [coins_verified], [replay], [feature_id], [epic],
    [downloads] and [likes], which the docstring of [update] lists, have
    no effect: the result is the same with and without them. *)
Theorem update_ignores_unread_keys (l : Level) (kwargs : Kwargs) (w : World) :
  update l kwargs w = update l (without_unread_keys kwargs) w.
Proof.
  unfold update. by destruct kwargs.
Qed.

(** X20. An [update] that names a truthy [song_id] together with a
    [track_id] sets both: the song reference is replaced and the track
    identifier is the one given, not 0. *)
Theorem update_song_and_track (l : Level) (kwargs : Kwargs) (w : World)
    (i t : Z) :
  id l <> 0 ->
  truthy (kw_song_id kwargs) = Some i ->
  kw_track_id kwargs = Some t ->
  exists l', update l kwargs w = (Ok l', w)
             /\ song l' = SongCoroutine i /\ track_id l' = t.
Proof.
  intros Hid Hs Ht. unfold update.
  destruct (Z.eqb_spec (id l) 0); [done |]. rewrite Hs.
  eexists. split; [reflexivity |]. cbn. by rewrite Ht.
Qed.

(** X21. [has_status] is a bit test: on a level with a non-negative
    rating status, having the union of two non-negative masks is having
    one of them, and no level has the empty mask. *)
Theorem has_status_union (l : Level) (a b : Z) :
  0 <= rate_status l -> 0 <= a -> 0 <= b ->
  has_status l (Z.lor a b) = has_status l a || has_status l b
  /\ has_status l 0 = false.
Proof.
  intros Hr Ha Hb. unfold has_status. split.
  - rewrite Z.land_lor_distr_r.
    pose proof (Z.land_nonneg (rate_status l) a) as [_ Hla].
    pose proof (Z.land_nonneg (rate_status l) b) as [_ Hlb].
    specialize (Hla (or_introl Hr)). specialize (Hlb (or_introl Hr)).
    pose proof (Z.lor_nonneg (Z.land (rate_status l) a)
                  (Z.land (rate_status l) b)) as [_ Hlor].
    specialize (Hlor (conj Hla Hlb)).
    pose proof (Z.lor_eq_0_iff (Z.land (rate_status l) a)
                  (Z.land (rate_status l) b)) as Hz.
    destruct (Z.ltb_spec 0 (Z.land (rate_status l) a));
      destruct (Z.ltb_spec 0 (Z.land (rate_status l) b));
      destruct (Z.ltb_spec 0 (Z.lor (Z.land (rate_status l) a)
                                (Z.land (rate_status l) b)));
      cbn; try done; exfalso; lia.
  - by rewrite Z.land_0_r.
Qed.

End Properties.

(** ** [helpers/common.py] *)

Section CommonProperties.
Variable Json : Type.
Variable json_dump : Json -> string.
Variable json_load : string -> option Json.

(** X22. After [write_file] the object holds the new content and the
    file holds its encoding, every other file being untouched; when
    [json.load] gives the content back from what [json.dump] wrote,
    opening the same path anew yields an equal object. *)
Theorem write_file_then_reopen (j : JsonFile Json) (v : Json) (disk : Disk) :
  json_load (json_dump v) = Some v ->
  let j1 := fst (write_file Json json_dump j v disk) in
  let disk1 := snd (write_file Json json_dump j v disk) in
  get_file Json j1 = Some v
  /\ disk1 !! file_name Json j = Some (json_dump v)
  /\ (forall other, other <> file_name Json j ->
                    disk1 !! other = disk !! other)
  /\ JsonFile_init Json json_load (file_name Json j) disk1 = Ok j1.
Proof.
  intros Hback j1 disk1. unfold j1, disk1, write_file, JsonFile_init; cbn.
  unfold Disk in *.
  split; [done |]. split; [apply lookup_insert_eq |]. split.
  - intros other Hother. by rewrite lookup_insert_ne.
  - by rewrite lookup_insert_eq, Hback.
Qed.

(** X23. Opening a path where no file exists raises nothing and gives an
    object whose content is [None]; opening a file whose text does not
    decode raises; opening a file that decodes gives its content. *)
Theorem JsonFile_init_outcomes (name : string) (disk : Disk) :
  (disk !! name = None ->
   exists j, JsonFile_init Json json_load name disk = Ok j
             /\ get_file Json j = None /\ file_name Json j = name)
  /\ (forall text, disk !! name = Some text -> json_load text = None ->
        JsonFile_init Json json_load name disk = Raise (ValueError text))
  /\ (forall text v, disk !! name = Some text -> json_load text = Some v ->
        exists j, JsonFile_init Json json_load name disk = Ok j
                  /\ get_file Json j = Some v).
Proof.
  unfold JsonFile_init. split; [| split].
  - intros ->. by eexists.
  - by intros text -> ->.
  - intros text v -> ->. by eexists.
Qed.

End CommonProperties.

(** * The properties on concrete levels and songs *)

Import Demo.

(** C1. Level 7 is in the store and not in the cache.  [Level.from_id]
    returns the un-awaited store lookup instead of a level; awaiting it
    fetches the row and yields [None], the level cache stays empty, and
    the next [Level.from_id] for 7 misses the cache again. *)
Theorem from_id_store_only_level :
  let w0 := level_in_store in
  let w1 := snd (from_id 7 w0) in
  let w2 := snd (await (Coroutine 7 true) w1) in
  fetchone_level (sql w0) 7 = Some row7
  /\ level_cache w0 !! 7 = None
  /\ fst (from_id 7 w0) = Ok (Coroutine 7 true)
  /\ trace w1 = [LevelCacheGet 7]
  /\ fst (await (Coroutine 7 true) w1) = Ok None
  /\ trace w2 = [LevelCacheGet 7; SqlFetchLevel 7; UserFromId 3]
  /\ level_cache w2 !! 7 = None
  /\ fst (from_id 7 w2) = Ok (Coroutine 7 true).
Proof.
  repeat split; reflexivity.
Qed.

(** C2. A level holds the cached payload [old]; a payload of 6000
    characters is written.  The file then holds the new payload, the
    instance cache still holds [old], and [load] returns [old] without
    going to the file store. *)
Theorem write_large_leaves_stale_cache :
  let l0 := Level_set_cache uploaded "old" in
  let w1 := snd (write l0 big_payload cold) in
  MAX_CACHE_SIZE < getsizeof big_payload
  /\ fst (write l0 big_payload cold) = Ok l0
  /\ _cache l0 = "old"
  /\ files w1 !! 1 = Some big_payload
  /\ trace w1 = [FileWrite 1 big_payload]
  /\ load l0 w1 = (Ok (Some "old", l0), w1).
Proof.
  intros l0 w1.
  assert (MAX_CACHE_SIZE < getsizeof big_payload) as Hbig
    by (vm_compute; reflexivity).
  subst w1. rewrite (write_large l0 big_payload cold Hbig).
  split; [exact Hbig |]. split; [reflexivity |]. split; [reflexivity |].
  split; [apply lookup_insert_eq |]. split; [reflexivity |].
  by apply load_from_cache.
Qed.

(** C3. Level 1 is given the custom song 5 and then the in-game track 3.
    The first update resets the track identifier; the second sets it to 3
    and leaves the song reference made by the first in place, so that both
    differ from their defaults afterwards. *)
Theorem update_track_id_keeps_song :
  exists l2 l3,
    update uploaded (only_song_id 5) cold = (Ok l2, cold)
    /\ song l2 = SongCoroutine 5 /\ track_id l2 = 0
    /\ update l2 (only_track_id 3) cold = (Ok l3, cold)
    /\ song l3 = SongCoroutine 5 /\ track_id l3 = 3
    /\ song l3 <> song Level_new /\ track_id l3 <> track_id Level_new.
Proof.
  do 2 eexists. repeat split; try reflexivity; done.
Qed.

(** C4. Level 1 has the in-game track 7; an update that names only a new
    name sets the name and resets the track identifier to 0. *)
Theorem update_resets_unnamed_track_id :
  exists l2 l3,
    update uploaded (only_track_id 7) cold = (Ok l2, cold)
    /\ track_id l2 = 7
    /\ update l2 (only_name "x") cold = (Ok l3, cold)
    /\ name l3 = "x" /\ track_id l3 = 0.
Proof.
  do 2 eexists. repeat split; reflexivity.
Qed.

(** [Song.insert] on a song that already has the identifier 5 raises
    nothing and writes the song to the store under that identifier. *)
Lemma Song_insert_with_identifier_writes :
  song_id song5 = 5
  /\ fst (Song_insert song5 cold) = Ok song5
  /\ trace (snd (Song_insert song5 cold))
     = [SqlInsertSong (insert_params song5)]
  /\ sp_id (insert_params song5) = Some 5
  /\ count_events is_store_insert (trace (snd (Song_insert song5 cold)))
     = 1%nat.
Proof.
  repeat split; reflexivity.
Qed.

(** A payload of 4990 ASCII characters encodes to 4990 bytes, below the
    threshold, yet [load] does not keep it in the instance cache. *)
Lemma load_small_encoding_not_cached :
  let w := with_payload near_payload in
  _cache uploaded = ""
  /\ files w !! id uploaded = Some near_payload
  /\ encoded_size near_payload = 4990
  /\ char_count near_payload = 4990
  /\ encoded_size near_payload <= MAX_CACHE_SIZE
  /\ fst (load uploaded w) = Ok (Some near_payload, uploaded).
Proof.
  assert (encoded_size near_payload = 4990) as He
    by (vm_compute; reflexivity).
  assert (char_count near_payload = 4990) as Hc
    by (vm_compute; reflexivity).
  assert (MAX_CACHE_SIZE < getsizeof near_payload) as Hbig
    by (vm_compute; reflexivity).
  intros w. split; [reflexivity |]. split; [reflexivity |].
  split; [exact He |]. split; [exact Hc |].
  split; [rewrite He; done |].
  subst w. rewrite (load_from_storage uploaded _ near_payload) by done.
  cbn [fst].
  assert ((getsizeof near_payload <=? MAX_CACHE_SIZE) = false) as -> by lia.
  reflexivity.
Qed.

Lemma Song_from_id_falsy_shortcut_witness :
  truthy (Some 0) = None
  /\ Song_from_id (Some 0) cold = (Ok (Some Song_new), cold).
Proof.
  split; [reflexivity |].
  apply (Song_from_id_falsy_shortcut (Some 0) cold). reflexivity.
Defined.

Lemma Song_from_id_malformed_reply_witness :
  post_request 404 = "-1"
  /\ fst (Song_from_id (Some 404) cold) = Ok None.
Proof.
  split; [reflexivity |].
  destruct (Song_from_id_malformed_reply 404 cold) as [-> _].
  - lia.
  - reflexivity.
  - reflexivity.
  - left. reflexivity.
  - reflexivity.
Defined.

Lemma Song_from_id_external_hit_witness :
  fst (Song_from_boomlings 803223 cold) = Ok (Some arcana)
  /\ fst (Song_from_id (Some 803223) cold) = Ok (Some arcana)
  /\ trace (snd (Song_from_id (Some 803223) cold))
     = [SongCacheGet 803223; SqlFetchSong 803223; PostRequest 803223;
        SqlInsertSong (insert_params arcana); SongCachePut 803223].
Proof.
  split; [reflexivity |].
  destruct (Song_from_id_external_hit 803223 arcana cold) as [-> _].
  - lia.
  - reflexivity.
  - reflexivity.
  - reflexivity.
  - split; reflexivity.
Defined.

Lemma Level_insert_create_once_witness :
  fst (insert Level_new cold) = Ok uploaded
  /\ id uploaded <> 0
  /\ insert uploaded (snd (insert Level_new cold))
     = (Raise (FileExistsError already_uploaded),
        snd (insert Level_new cold)).
Proof.
  split; [reflexivity |]. split; [cbn; lia |].
  apply (Level_insert_create_once uploaded (snd (insert Level_new cold))).
  cbn; lia.
Defined.

Lemma load_caches_by_object_size_witness :
  getsizeof "abc" = 52
  /\ load uploaded (with_payload "abc")
     = (Ok (Some "abc", Level_set_cache uploaded "abc"),
        record_events [PathExists 1; FileRead 1] (with_payload "abc")).
Proof.
  split; [reflexivity |].
  apply (load_caches_by_object_size uploaded (with_payload "abc") "abc");
    reflexivity.
Defined.

(** * The further properties on concrete levels and songs *)

Import Scenes.

Lemma Song_from_id_cache_hit_witness :
  song_cache song_cached !! 5 = Some song5
  /\ Song_from_id (Some 5) song_cached
     = (Ok (Some song5), record_events [SongCacheGet 5] song_cached).
Proof.
  split; [reflexivity |].
  apply (Song_from_id_cache_hit 5 song5 song_cached); [lia | reflexivity].
Defined.

Lemma Song_from_id_store_hit_witness :
  fetchone_song (sql stored) 803223 = Some arcana_row
  /\ fst (Song_from_id (Some 803223) stored) = Ok (Some arcana)
  /\ trace (snd (Song_from_id (Some 803223) stored))
     = [SongCacheGet 803223; SqlFetchSong 803223; SongCachePut 803223].
Proof.
  split; [reflexivity |].
  destruct (Song_from_id_store_hit (C := collaborators) 803223 arcana_row
              stored) as [-> _].
  - lia.
  - reflexivity.
  - reflexivity.
  - split; reflexivity.
Defined.

Lemma Song_from_id_backfills_witness :
  let w' := snd (Song_from_id (Some 803223) stored) in
  song_cache stored !! 803223 = None
  /\ song_cache w' !! 803223 = Some arcana
  /\ Song_from_id (Some 803223) w'
     = (Ok (Some arcana), record_events [SongCacheGet 803223] w').
Proof.
  intros w'. split; [reflexivity |].
  destruct (Song_from_id_backfills 803223 arcana stored w') as [Hin Hhit].
  - lia.
  - reflexivity.
  - reflexivity.
  - split; [exact Hin |]. apply Hhit. cbn. lia.
Defined.

Lemma Song_insert_then_from_sql_witness :
  exists w1 w2,
    Song_insert arcana cold = (Ok arcana, w1)
    /\ Song_from_sql 803223 w1 = (Ok (Some arcana), w2)
    /\ trace w2
       = [SqlInsertSong (insert_params arcana); SqlFetchSong 803223].
Proof.
  apply (Song_insert_then_from_sql arcana cold). reflexivity.
Defined.

Lemma Song_from_id_incomplete_reply_witness :
  @post_request Partial.collaborators 1 = "1~|~77~|~3~|~9"
  /\ exists e,
       ((exists j, j ∈ required_keys /\ e = KeyError j)
        \/ exists arg, e = ValueError arg)
       /\ @Song_from_id Partial.collaborators (Some 1) Partial.cold
          = (Raise e,
             record_events [SongCacheGet 1; SqlFetchSong 1; PostRequest 1]
               Partial.cold).
Proof.
  split; [reflexivity |].
  apply (@Song_from_id_incomplete_reply Partial.collaborators 1 2
           Partial.cold).
  - lia.
  - reflexivity.
  - reflexivity.
  - reflexivity.
  - discriminate.
  - apply list_elem_of_In. cbn. tauto.
  - reflexivity.
Defined.


Lemma from_sql_missing_row_witness :
  from_sql 7 true cold = (Ok None, record_events [SqlFetchLevel 7] cold).
Proof.
  apply (from_sql_missing_row 7 true cold). reflexivity.
Defined.

Lemma from_sql_warms_song_cache_witness :
  fst (from_sql 9 true stored) = Ok None
  /\ song_cache (snd (from_sql 9 true stored)) !! 803223 = Some arcana.
Proof.
  rewrite (from_sql_warms_song_cache (C := collaborators) 9 803223 true row9
             arcana_row stored);
    [split; reflexivity | reflexivity | reflexivity | lia | reflexivity
    | reflexivity].
Defined.

Lemma load_missing_file_witness :
  load uploaded cold = (Ok (None, uploaded), record_events [PathExists 1] cold).
Proof.
  apply (load_missing_file uploaded cold); reflexivity.
Defined.

Lemma load_repeatedly_cached_witness :
  load_repeatedly 3 (Level_set_cache uploaded "old") (with_payload "new")
  = (Ok ([Some "old"; Some "old"; Some "old"],
         Level_set_cache uploaded "old"),
     with_payload "new").
Proof.
  apply (load_repeatedly_cached (Level_set_cache uploaded "old")
           (with_payload "new") 3).
  discriminate.
Defined.


Lemma insert_twice_witness :
  exists w1,
    insert Level_new cold = (Ok uploaded, w1)
    /\ trace w1
       = [SqlInsertLevel (level_params Level_new 0 (-1) 1600000000)]
    /\ insert uploaded w1 = (Raise (FileExistsError already_uploaded), w1).
Proof.
  destruct (insert_twice (C := collaborators) Level_new cold 0 Song_new)
    as (w1 & Hfirst & Htrace & _ & Hsecond).
  - reflexivity.
  - reflexivity.
  - reflexivity.
  - cbn. lia.
  - exists w1. split; [exact Hfirst |]. split; [exact Htrace |].
    exact Hsecond.
Defined.

Lemma insert_without_song_object_witness :
  song songless = SongNone
  /\ insert songless cold = (Raise (AttributeError "id"), cold).
Proof.
  split; [reflexivity |].
  apply (insert_without_song_object (C := collaborators) songless cold 0).
  - reflexivity.
  - reflexivity.
  - intros s. discriminate.
Defined.

Lemma update_song_and_track_witness :
  exists l', update uploaded (song_and_track 5 3) cold = (Ok l', cold)
             /\ song l' = SongCoroutine 5 /\ track_id l' = 3.
Proof.
  apply (update_song_and_track uploaded (song_and_track 5 3) cold 5 3).
  - cbn. lia.
  - reflexivity.
  - reflexivity.
Defined.

Lemma has_status_union_witness :
  has_status rated (Z.lor 1 2) = has_status rated 1 || has_status rated 2
  /\ has_status rated 0 = false.
Proof.
  apply (has_status_union rated 1 2); cbn; lia.
Defined.

Lemma write_file_then_reopen_witness :
  let j := mkJsonFile string None "conf.json" in
  let j1 := fst (write_file string (fun v => v) j "{}" ∅) in
  let disk1 := snd (write_file string (fun v => v) j "{}" ∅) in
  get_file string j1 = Some "{}"
  /\ JsonFile_init string Some "conf.json" disk1 = Ok j1.
Proof.
  intros j j1 disk1.
  destruct (write_file_then_reopen string (fun v => v) Some j "{}" ∅)
    as (Hget & _ & _ & Hopen).
  - reflexivity.
  - split; [exact Hget | exact Hopen].
Defined.
